(** * Device fan-out dispatch of [multidevice/send.go]

    A shallow embedding of the send path of the multi-device client
    (message routing, device resolution, per-device encryption with the
    prekey retry, node assembly and the participant hash), followed by the
    properties of that code.

    Byte strings are lists of integers in [0, 256); Go strings are Rocq
    strings (sequences of 8-bit characters); maps are [gmap]s; every call
    that leaves the package (transport, signal library, protobuf
    marshalling) is a field of a [World] record and is recorded in the
    client's event trace. *)

From Stdlib Require Import ZArith List Ascii String Bool Lia OrderedTypeEx.
From stdpp Require Import base decidable countable list gmap strings sorting pretty.

Local Open Scope Z_scope.

Definition bytes := list Z.

(** ** Go standard library: strings, sorting, SHA-256, base64 *)

Module GoLib.

(** [[]byte(s)]: the bytes of a Go string. *)
Definition bytes_of_string (s : string) : bytes :=
  map (fun c => Z.of_N (N_of_ascii c)) (list_ascii_of_string s).

Definition string_of_bytes (b : bytes) : string :=
  string_of_list_ascii (map (fun z => ascii_of_N (Z.to_N z)) b).

(** [strings.Join(elems, sep)]. *)
Fixpoint strings_Join (elems : list string) (sep : string) : string :=
  match elems with
  | [] => EmptyString
  | [s] => s
  | s :: rest => String.append s (String.append sep (strings_Join rest sep))
  end.

(** [sort.Strings]: the slice is ordered with [x[i] < x[j]], the
    byte-wise order of Go strings.  The library's algorithm is not part of
    its contract (the result is the sorted arrangement of the slice); it is
    embedded as an insertion sort on the same comparison. *)
Fixpoint sort_insert (s : string) (l : list string) : list string :=
  match l with
  | [] => [s]
  | t :: l' => if String.ltb t s then t :: sort_insert s l' else s :: l
  end.

Fixpoint sort_Strings (l : list string) : list string :=
  match l with
  | [] => []
  | s :: l' => sort_insert s (sort_Strings l')
  end.

(** *** SHA-256 (FIPS 180-4) on 32-bit words held in [Z]. *)

Definition w32 (x : Z) : Z := x mod 2 ^ 32.
Definition add32 (x y : Z) : Z := w32 (x + y).
Definition not32 (x : Z) : Z := Z.lxor x 4294967295.
Definition rotr (n x : Z) : Z :=
  Z.lor (Z.shiftr x n) (w32 (Z.shiftl x (32 - n))).

Definition Ch (x y z : Z) : Z := Z.lxor (Z.land x y) (Z.land (not32 x) z).
Definition Maj (x y z : Z) : Z :=
  Z.lxor (Z.lxor (Z.land x y) (Z.land x z)) (Z.land y z).
Definition bsig0 (x : Z) : Z := Z.lxor (Z.lxor (rotr 2 x) (rotr 13 x)) (rotr 22 x).
Definition bsig1 (x : Z) : Z := Z.lxor (Z.lxor (rotr 6 x) (rotr 11 x)) (rotr 25 x).
Definition ssig0 (x : Z) : Z := Z.lxor (Z.lxor (rotr 7 x) (rotr 18 x)) (Z.shiftr x 3).
Definition ssig1 (x : Z) : Z := Z.lxor (Z.lxor (rotr 17 x) (rotr 19 x)) (Z.shiftr x 10).

(** The round constants: the first 32 bits of the fractional parts of the
    cube roots of the first 64 primes. *)
Definition is_prime (n : Z) : bool :=
  (1 <? n)
  && forallb (fun d => negb (n mod d =? 0))
       (map Z.of_nat (seq 2 (Z.to_nat n - 2))).

Definition primes64 : list Z :=
  List.filter is_prime (map Z.of_nat (seq 2 310)).

(** The integer cube root of [n], found bit by bit below [2 ^ bits]. *)
Fixpoint cube_root (bits : nat) (n r : Z) : Z :=
  match bits with
  | O => r
  | S b =>
      let t := r + 2 ^ Z.of_nat b in
      cube_root b n (if t * t * t <=? n then t else r)
  end.

Definition K256 : list Z :=
  map (fun p => w32 (cube_root 36 (p * 2 ^ 96) 0)) primes64.

(** Big-endian encodings. *)
Fixpoint be_bytes (n : nat) (x : Z) : bytes :=
  match n with
  | O => []
  | S n' => (Z.shiftr x (8 * Z.of_nat n')) mod 256 :: be_bytes n' x
  end.

Definition be_word (b : bytes) : Z :=
  fold_left (fun acc x => acc * 256 + x) b 0.

Definition sha_pad (msg : bytes) : bytes :=
  let len := Z.of_nat (length msg) in
  msg ++ 128 :: repeat 0 (Z.to_nat ((55 - len) mod 64)) ++ be_bytes 8 (8 * len).

(** Cuts a list into consecutive pieces of [n] elements. *)
Fixpoint chunks {A} (fuel n : nat) (l : list A) : list (list A) :=
  match fuel with
  | O => []
  | S fuel' =>
      match l with
      | [] => []
      | _ => firstn n l :: chunks fuel' n (skipn n l)
      end
  end.

Definition block_words (block : bytes) : list Z :=
  map be_word (chunks 16 4 block).

(** The message schedule: [w] holds W_0 .. W_(t-1); [k] more are added. *)
Fixpoint schedule (k : nat) (w : list Z) : list Z :=
  match k with
  | O => w
  | S k' =>
      let t := length w in
      let at_ i := nth (t - i) w 0 in
      schedule k'
        (w ++ [add32 (add32 (ssig1 (at_ 2%nat)) (at_ 7%nat))
                     (add32 (ssig0 (at_ 15%nat)) (at_ 16%nat))])
  end.

Record sha_state := ShaState
  { sa : Z; sb : Z; sc : Z; sd : Z; se : Z; sf : Z; sg : Z; sh : Z }.

Definition sha_round (st : sha_state) (kw : Z * Z) : sha_state :=
  let t1 := add32 (add32 (add32 (sh st) (bsig1 (se st)))
                         (add32 (Ch (se st) (sf st) (sg st)) (fst kw))) (snd kw) in
  let t2 := add32 (bsig0 (sa st)) (Maj (sa st) (sb st) (sc st)) in
  ShaState (add32 t1 t2) (sa st) (sb st) (sc st)
           (add32 (sd st) t1) (se st) (sf st) (sg st).

Definition sha_block (st : sha_state) (block : bytes) : sha_state :=
  let w := schedule 48 (block_words block) in
  let r := fold_left sha_round (combine K256 w) st in
  ShaState (add32 (sa st) (sa r)) (add32 (sb st) (sb r))
           (add32 (sc st) (sc r)) (add32 (sd st) (sd r))
           (add32 (se st) (se r)) (add32 (sf st) (sf r))
           (add32 (sg st) (sg r)) (add32 (sh st) (sh r)).

Definition sha_init : sha_state :=
  ShaState 0x6a09e667 0xbb67ae85 0x3c6ef372 0xa54ff53a
           0x510e527f 0x9b05688c 0x1f83d9ab 0x5be0cd19.

(** [sha256.Sum256(data)]: the 32-byte digest. *)
Definition sha256_Sum256 (data : bytes) : bytes :=
  let padded := sha_pad data in
  let st := fold_left sha_block (chunks (length padded) 64 padded) sha_init in
  concat (map (be_bytes 4)
    [sa st; sb st; sc st; sd st; se st; sf st; sg st; sh st]).

(** *** [base64.RawStdEncoding]: the standard alphabet, no padding. *)

Definition encodeStd : string :=
  "ABCDEFGHIJKLMNOPQRSTUVWXYZabcdefghijklmnopqrstuvwxyz0123456789+/".

Definition b64_char (i : Z) : ascii :=
  match String.get (Z.to_nat i) encodeStd with
  | Some c => c
  | None => "A"%char
  end.

Fixpoint base64_raw (fuel : nat) (src : bytes) : string :=
  match fuel with
  | O => EmptyString
  | S fuel' =>
      match src with
      | [] => EmptyString
      | [x] =>
          String (b64_char (Z.shiftr x 2))
            (String (b64_char (Z.land (Z.shiftl x 4) 63)) EmptyString)
      | [x; y] =>
          String (b64_char (Z.shiftr x 2))
            (String (b64_char (Z.land (Z.lor (Z.shiftl x 4) (Z.shiftr y 4)) 63))
               (String (b64_char (Z.land (Z.shiftl y 2) 63)) EmptyString))
      | x :: y :: z :: rest =>
          String (b64_char (Z.shiftr x 2))
            (String (b64_char (Z.land (Z.lor (Z.shiftl x 4) (Z.shiftr y 4)) 63))
               (String (b64_char (Z.land (Z.lor (Z.shiftl y 2) (Z.shiftr z 6)) 63))
                  (String (b64_char (Z.land z 63)) (base64_raw fuel' rest))))
      end
  end.

Definition base64_RawStdEncoding_EncodeToString (src : bytes) : string :=
  base64_raw (S (length src)) src.

End GoLib.

(** ** Participant hash *)

(** [participantListHashV2], send.go lines 57-61. *)
Definition participantListHashV2 (participantJIDs : list string) : string :=
  let sorted := GoLib.sort_Strings participantJIDs in
  let hash := GoLib.sha256_Sum256
                (GoLib.bytes_of_string (GoLib.strings_Join sorted "")) in
  String.append "2:"
    (GoLib.base64_RawStdEncoding_EncodeToString (firstn 6 hash)).

Definition hexdigit (i : Z) : ascii :=
  match String.get (Z.to_nat i) "0123456789abcdef" with
  | Some c => c
  | None => "0"%char
  end.

(** [hex.EncodeToString]. *)
Fixpoint hex_EncodeToString (b : bytes) : string :=
  match b with
  | [] => EmptyString
  | x :: b' =>
      String (hexdigit (Z.shiftr x 4))
        (String (hexdigit (Z.land x 15)) (hex_EncodeToString b'))
  end.


(** ** Addresses and nodes ([waBinary])

    The node and address types are declared in the [binary] package of the
    repository; send.go builds and inspects them through the constructors
    and accessors below. *)

(** [waBinary.FullJID]: compared field by field by Go's [==]. *)
Record FullJID := mkJID
  { User : string; Agent : Z; Device : Z; Server : string; AD : bool }.

#[global] Instance FullJID_eq_dec : EqDecision FullJID.
Proof. solve_decision. Defined.

#[global] Instance FullJID_countable : Countable FullJID.
Proof.
  refine (inj_countable'
    (fun j => (User j, Agent j, Device j, Server j, AD j))
    (fun t => let '(u, a, d, s, ad) := t in mkJID u a d s ad) _).
  by intros [].
Defined.

(** [waBinary.NewJID(user, server)]. *)
Definition NewJID (user server : string) : FullJID := mkJID user 0 0 server false.

(** Attribute values are [interface{}] in the source; send.go stores and
    reads strings and addresses, everything else is [AttrOther]. *)
Inductive AttrValue :=
  | AttrString (s : string)
  | AttrJID (j : FullJID)
  | AttrOther.

Inductive NodeContent (N : Type) :=
  | ContentNil
  | ContentNodes (children : list N)
  | ContentBytes (b : bytes)
  | ContentString (s : string).
Arguments ContentNil {N}.
Arguments ContentNodes {N} children.
Arguments ContentBytes {N} b.
Arguments ContentString {N} s.

(** [waBinary.Node]. *)
#[local] Set Warnings "-register-all".
Inductive Node := mkNode
  { Tag : string; Attrs : gmap string AttrValue; Content : NodeContent Node }.

Definition zeroNode : Node := mkNode "" ∅ ContentNil.

(** Modelled from the spec: [Node.GetChildren], the children of a node
    whose body is a sequence of nodes, nothing for any other body. *)
Definition GetChildren (n : Node) : list Node :=
  match Content n with
  | ContentNodes l => l
  | _ => []
  end.

(** Modelled from the spec: [Node.GetOptionalChildByTag], the first child
    carrying the tag, with the zero node and [false] when there is none. *)
Definition GetOptionalChildByTag (n : Node) (tag : string) : Node * bool :=
  match List.find (fun ch => String.eqb (Tag ch) tag) (GetChildren n) with
  | Some ch => (ch, true)
  | None => (zeroNode, false)
  end.

(** Modelled from the spec: [Node.GetChildByTag]. *)
Definition GetChildByTag (n : Node) (tag : string) : Node :=
  fst (GetOptionalChildByTag n tag).

(** *** Attribute getters ([Node.AttrGetter]) *)

(** [strconv.ParseInt(s, 10, 64)]: an optional sign, at least one decimal
    digit, and a value that fits 64 signed bits. *)
Definition digit_val (c : ascii) : option Z :=
  let n := Z.of_N (N_of_ascii c) in
  if (48 <=? n) && (n <=? 57) then Some (n - 48) else None.

Fixpoint parse_digits (acc : Z) (s : string) : option Z :=
  match s with
  | EmptyString => Some acc
  | String c s' =>
      match digit_val c with
      | Some d => parse_digits (acc * 10 + d) s'
      | None => None
      end
  end.

Definition strconv_ParseInt64 (s : string) : option Z :=
  let '(neg, body) :=
    match s with
    | String "-" s' => (true, s')
    | String "+" s' => (false, s')
    | _ => (false, s)
    end in
  match body with
  | EmptyString => None
  | _ =>
      match parse_digits 0 body with
      | Some v =>
          let v' := if neg : bool then - v else v in
          if (- 2 ^ 63 <=? v') && (v' <? 2 ^ 63) then Some v' else None
      | None => None
      end
  end.

(** Modelled from the spec: the attribute getter keeps the attributes and
    the list of attributes that failed to parse. *)
Record AttrUtility := mkAttrUtility
  { auAttrs : gmap string AttrValue; auErrors : list string }.

Definition AttrGetter (n : Node) : AttrUtility := mkAttrUtility (Attrs n) [].

Definition au_fail (au : AttrUtility) (key : string) : AttrUtility :=
  mkAttrUtility (auAttrs au) (auErrors au ++ [key]).

Definition au_GetString (au : AttrUtility) (key : string) (require : bool)
  : string * bool * AttrUtility :=
  match auAttrs au !! key with
  | None => ("", false, if require then au_fail au key else au)
  | Some (AttrString s) => (s, true, au)
  | Some _ => ("", false, au_fail au key)
  end.

Definition au_GetJID (au : AttrUtility) (key : string) (require : bool)
  : FullJID * bool * AttrUtility :=
  match auAttrs au !! key with
  | None => (NewJID "" "", false, if require then au_fail au key else au)
  | Some (AttrJID j) => (j, true, au)
  | Some _ => (NewJID "" "", false, au_fail au key)
  end.

Definition au_GetInt64 (au : AttrUtility) (key : string) (require : bool)
  : Z * bool * AttrUtility :=
  match au_GetString au key require with
  | (_, false, au') => (0, false, au')
  | (s, true, au') =>
      match strconv_ParseInt64 s with
      | Some v => (v, true, au')
      | None => (0, false, au_fail au' key)
      end
  end.

Definition au_String (au : AttrUtility) (key : string) : string * AttrUtility :=
  let '(s, _, au') := au_GetString au key true in (s, au').
Definition au_OptionalString (au : AttrUtility) (key : string) : string * AttrUtility :=
  let '(s, _, au') := au_GetString au key false in (s, au').
Definition au_JID (au : AttrUtility) (key : string) : FullJID * AttrUtility :=
  let '(j, _, au') := au_GetJID au key true in (j, au').
Definition au_Int64 (au : AttrUtility) (key : string) : Z * AttrUtility :=
  let '(v, _, au') := au_GetInt64 au key true in (v, au').
Definition au_OK (au : AttrUtility) : bool :=
  match auErrors au with [] => true | _ => false end.

(** ** Errors, protobuf values and the signal library *)

(** Go errors.  [ErrorfW] is [fmt.Errorf] with a [%w] verb, which keeps
    the cause in the chain that [errors.Is] walks; [ErrExt] is an error
    value created outside this package. *)
Inductive error :=
  | ErrNoSession
  | ErrExt (msg : string)
  | Errorf (format : string) (args : list string)
  | ErrorfW (format : string) (args : list string) (cause : error).

(** [errors.Is(err, ErrNoSession)]. *)
Fixpoint errors_Is_ErrNoSession (err : error) : bool :=
  match err with
  | ErrNoSession => true
  | ErrorfW _ _ cause => errors_Is_ErrNoSession cause
  | _ => false
  end.

Inductive result (A : Type) :=
  | Ok (a : A)
  | Err (e : error).
Arguments Ok {A} a.
Arguments Err {A} e.

(** What a call outside the package returns: a value or its error text. *)
Definition ext_result (A : Type) : Type := string + A.

Record SenderKeyDistributionMessage := mkSKDM
  { GroupId : string; AxolotlSenderKeyDistributionMessage : bytes }.

(** [waProto.Message], with the fields send.go sets. *)
Record Message := mkMessage
  { Conversation : option string;
    SenderKeyDistributionMessage_ : option SenderKeyDistributionMessage }.

Record DeviceSentMessage := mkDeviceSentMessage
  { DestinationJid : string; Message_ : Message }.

(** [cli.Session.Account], the signed device identity. *)
Record ADVSignedDeviceIdentity := mkAccount
  { Details : bytes; AccountSignature : bytes; DeviceSignature : bytes }.

(** The values handed to [proto.Marshal]. *)
Inductive proto_Message :=
  | PMessage (m : Message)
  | PDeviceSentMessage (m : DeviceSentMessage)
  | PAccount (a : ADVSignedDeviceIdentity).

(** [protocol.SignalAddress]: a name and a device id. *)
Definition SignalAddress : Type := string * Z.

Record SenderKeyName := mkSenderKeyName
  { skGroupId : string; skSender : SignalAddress }.

(** [protocol.CiphertextMessage]: [Type()] and [Serialize()]. *)
Record CiphertextMessage := mkCiphertext
  { ctType : Z; ctSerialize : bytes }.

Definition PREKEY_TYPE : Z := 3.

Definition Bundle : Type := bytes.
Definition SessionRecord : Type := bytes.

(** The entry of the map returned by [fetchPreKeys]. *)
Record preKeyResp := mkPreKeyResp
  { bundle : option Bundle; err : option string }.

Record InfoQuery := mkInfoQuery
  { Namespace : string; Type_ : string; To : FullJID; QContent : list Node }.

(** [whatsapp.GroupParticipant] and [whatsapp.GroupInfo]. *)
Record GroupParticipant := mkGroupParticipant
  { pJID : string; pIsAdmin : bool; pFullJID : FullJID }.

Record GroupInfo := mkGroupInfo
  { gJID : string; gOwnerJID : string;
    gName : string; gNameSetTime : Z; gNameSetBy : string;
    gGroupCreated : Z;
    gTopic : string; gTopicID : string; gTopicSetBy : string; gTopicSetAt : Z;
    gAnnounce : bool; gLocked : bool;
    gParticipants : list GroupParticipant }.

(** ** Events and the world outside the package *)

Inductive LogLevel := Debug | Warn.

Inductive LogArg :=
  | LString (s : string)
  | LJID (j : FullJID)
  | LJIDs (l : list FullJID)
  | LErr (e : error)
  | LStrings (l : list string).

(** One entry per call that leaves send.go, in the order of the calls. *)
Inductive Event :=
  | EvSendIQ (q : InfoQuery)
  | EvSendNode (n : Node)
  | EvFetchPreKeys (users : list FullJID)
  | EvProcessBundle (to : FullJID) (b : Bundle) (ok : bool)
  | EvEncrypt (to : FullJID) (padded : bytes) (res : option CiphertextMessage)
  | EvGroupCreate (name : SenderKeyName)
  | EvGroupEncrypt (name : SenderKeyName) (padded : bytes)
  | EvLog (lvl : LogLevel) (format : string) (args : list LogArg).

(** Everything send.go calls and does not define.  An answer may depend on
    all the calls made before it (the trace), which covers servers,
    randomness and the state the signal library keeps for itself. *)
Record World := mkWorld
  { GroupServer : string;
    DefaultUserServer : string;
    JID_String : FullJID -> string;
    JID_SignalAddress : FullJID -> SignalAddress;
    XMLString : Node -> string;
    proto_Marshal : proto_Message -> ext_result bytes;
    rand_Read : list Event -> nat -> ext_result bytes;
    generateRequestID : list Event -> string;
    sendIQ : list Event -> InfoQuery -> ext_result Node;
    sendNode : list Event -> Node -> option string;
    fetchPreKeys : list Event -> list FullJID -> ext_result (gmap FullJID preKeyResp);
    padMessage : list Event -> bytes -> bytes;
    builder_ProcessBundle :
      list Event -> SignalAddress -> Bundle -> ext_result SessionRecord;
    cipher_Encrypt :
      list Event -> SignalAddress -> option SessionRecord -> bytes ->
      ext_result (SessionRecord * CiphertextMessage);
    groupBuilder_Create : list Event -> SenderKeyName -> ext_result bytes;
    groupCipher_Encrypt : list Event -> SenderKeyName -> bytes -> ext_result bytes }.

(** The client: its registered address and identity, the session store
    (one record per signal address; a record is written by bundle
    processing and by encryption for that address only) and the trace. *)
Record Client := mkClient
  { Session_ID : FullJID;
    Session_Account : ADVSignedDeviceIdentity;
    sessions : gmap SignalAddress SessionRecord;
    trace : list Event }.

Definition emit (ev : Event) (c : Client) : Client :=
  mkClient (Session_ID c) (Session_Account c) (sessions c) (trace c ++ [ev]).

Definition StoreSession (a : SignalAddress) (r : SessionRecord) (c : Client) : Client :=
  mkClient (Session_ID c) (Session_Account c) (<[a := r]> (sessions c)) (trace c).

(** [cli.Session.ContainsSession]. *)
Definition ContainsSession (c : Client) (a : SignalAddress) : bool :=
  bool_decide (is_Some (sessions c !! a)).

Local Open Scope string_scope.
Local Open Scope Z_scope.
Local Open Scope list_scope.

Definition log (lvl : LogLevel) (format : string) (args : list LogArg)
  (c : Client) : Client :=
  emit (EvLog lvl format args) c.

(** ** The send path of send.go *)

Section Send.

Variable W : World.

(** Modelled from the spec: [waBinary.NewADJID], the device-qualified
    address of a user's device on the default user server. *)
Definition NewADJID (user : string) (agent device : Z) : FullJID :=
  mkJID user agent device (DefaultUserServer W) true.

(** [waBinary.ServerJID]. *)
Definition ServerJID : FullJID := NewJID "" (DefaultUserServer W).

(** [byte(x)] on an [int64]: the low eight bits. *)
Definition byte_of_int64 (x : Z) : Z := x mod 256.

(** [marshalMessage], lines 174-193.  The second plaintext is [None] for
    Go's nil slice. *)
Definition marshalMessage (to : FullJID) (message : Message)
  : result (bytes * option bytes) :=
  match proto_Marshal W (PMessage message) with
  | inl e => Err (ErrorfW "failed to marshal message: %w" [] (ErrExt e))
  | inr plaintext =>
      if negb (String.eqb (Server to) (GroupServer W)) then
        match proto_Marshal W
                (PDeviceSentMessage (mkDeviceSentMessage (JID_String W to) message)) with
        | inl e =>
            Err (ErrorfW "failed to marshal message (for own devices): %w" [] (ErrExt e))
        | inr dsmPlaintext => Ok (plaintext, Some dsmPlaintext)
        end
      else Ok (plaintext, None)
  end.

(** [cli.sendIQ]: the query goes out and the answer comes back. *)
Definition do_sendIQ (q : InfoQuery) (c : Client) : ext_result Node * Client :=
  (sendIQ W (trace c) q, emit (EvSendIQ q) c).

(** *** [GetGroupInfo], lines 195-262 *)

Definition group_add_participant (g : GroupInfo) (p : GroupParticipant) : GroupInfo :=
  mkGroupInfo (gJID g) (gOwnerJID g) (gName g) (gNameSetTime g) (gNameSetBy g)
    (gGroupCreated g) (gTopic g) (gTopicID g) (gTopicSetBy g) (gTopicSetAt g)
    (gAnnounce g) (gLocked g) (gParticipants g ++ [p]).

Definition group_set_topic (g : GroupInfo) (topic id by_ : string) (at_ : Z) : GroupInfo :=
  mkGroupInfo (gJID g) (gOwnerJID g) (gName g) (gNameSetTime g) (gNameSetBy g)
    (gGroupCreated g) topic id by_ at_
    (gAnnounce g) (gLocked g) (gParticipants g).

Definition group_set_announce (g : GroupInfo) : GroupInfo :=
  mkGroupInfo (gJID g) (gOwnerJID g) (gName g) (gNameSetTime g) (gNameSetBy g)
    (gGroupCreated g) (gTopic g) (gTopicID g) (gTopicSetBy g) (gTopicSetAt g)
    true (gLocked g) (gParticipants g).

Definition group_set_locked (g : GroupInfo) : GroupInfo :=
  mkGroupInfo (gJID g) (gOwnerJID g) (gName g) (gNameSetTime g) (gNameSetBy g)
    (gGroupCreated g) (gTopic g) (gTopicID g) (gTopicSetBy g) (gTopicSetAt g)
    (gAnnounce g) true (gParticipants g).

(** The body of the loop over the children of the group node. *)
Definition groupChild (jid : FullJID) (child : Node) (gc : GroupInfo * Client)
  : GroupInfo * Client :=
  let '(group, c) := gc in
  let childAG := AttrGetter child in
  let '(group1, childAG1, c1) :=
    if String.eqb (Tag child) "participant" then
      let '(ty, ag1) := au_OptionalString childAG "type" in
      let '(fj, ag2) := au_JID ag1 "jid" in
      (group_add_participant group
         (mkGroupParticipant (JID_String W fj) (String.eqb ty "admin") fj), ag2, c)
    else if String.eqb (Tag child) "description" then
      let '(body, bodyOK) := GetOptionalChildByTag child "body" in
      if bodyOK : bool then
        let topic := match Content body with ContentString s => s | _ => "" end in
        let '(id, ag1) := au_String childAG "id" in
        let '(by_, ag2) := au_JID ag1 "participant" in
        let '(at_, ag3) := au_Int64 ag2 "t" in
        (group_set_topic group topic id (JID_String W by_) at_, ag3, c)
      else (group, childAG, c)
    else if String.eqb (Tag child) "announcement" then
      (group_set_announce group, childAG, c)
    else if String.eqb (Tag child) "locked" then
      (group_set_locked group, childAG, c)
    else
      (group, childAG,
       log Debug "Unknown element in group node %s: %s"
         [LString (JID_String W jid); LString (XMLString W child)] c) in
  if au_OK childAG1 then (group1, c1)
  else (group1,
        log Warn "Possibly failed to parse %s element in group node: %+v"
          [LString (Tag child); LStrings (auErrors childAG1)] c1).

Definition GetGroupInfo (jid : FullJID) (c : Client) : result GroupInfo * Client :=
  let q := mkInfoQuery "w:g2" "get" jid
             [mkNode "query" {[ "request" := AttrString "interactive" ]} ContentNil] in
  match do_sendIQ q c with
  | (inl e, c1) => (Err (ErrorfW "failed to request group info: %w" [] (ErrExt e)), c1)
  | (inr res, c1) =>
      let '(errorNode, ok) := GetOptionalChildByTag res "error" in
      if ok : bool then
        (Err (Errorf "group info request returned error: %s" [XMLString W errorNode]), c1)
      else
        let '(groupNode, ok) := GetOptionalChildByTag res "group" in
        if negb ok then
          (Err (Errorf "group info request didn't return group info" []), c1)
        else
          let ag := AttrGetter groupNode in
          let '(id, ag) := au_String ag "id" in
          let '(creator, ag) := au_JID ag "creator" in
          let '(subject, ag) := au_String ag "subject" in
          let '(s_t, ag) := au_Int64 ag "s_t" in
          let '(s_o, ag) := au_JID ag "s_o" in
          let '(creation, ag) := au_Int64 ag "creation" in
          let group :=
            mkGroupInfo (JID_String W (NewJID id (GroupServer W)))
              (JID_String W creator) subject s_t (JID_String W s_o) creation
              "" "" "" 0 false false [] in
          let '(group', c2) :=
            fold_left (fun gc child => groupChild jid child gc)
              (GetChildren groupNode) (group, c1) in
          (Ok group', c2)
  end.

(** *** [GetUSyncDevices], lines 264-330 *)

(** The body of the inner loop, over the entries of one device list. *)
Definition usyncDevice (own : FullJID) (ignorePrimary : bool) (jid : FullJID)
  (devices : list FullJID) (device : Node) : list FullJID :=
  let '(deviceID, ok, _) := au_GetInt64 (AttrGetter device) "id" true in
  if negb (String.eqb (Tag device) "device") || negb ok then devices
  else
    let deviceJID := NewADJID (User jid) 0 (byte_of_int64 deviceID) in
    if ((0 <? Device deviceJID) || negb ignorePrimary)
       && negb (bool_decide (deviceJID = own))
    then devices ++ [deviceJID]
    else devices.

(** The body of the outer loop, over the user entries of the list. *)
Definition usyncUser (own : FullJID) (ignorePrimary : bool)
  (devices : list FullJID) (user : Node) : list FullJID :=
  match Attrs user !! "jid" with
  | Some (AttrJID jid) =>
      if negb (String.eqb (Tag user) "user") then devices
      else
        let deviceNode := GetChildByTag user "devices" in
        let deviceList := GetChildByTag deviceNode "device-list" in
        if negb (String.eqb (Tag deviceNode) "devices")
           || negb (String.eqb (Tag deviceList) "device-list")
        then devices
        else fold_left (usyncDevice own ignorePrimary jid)
               (GetChildren deviceList) devices
  | _ => devices
  end.

Definition usyncQuery (sid : string) (jids : list FullJID) : InfoQuery :=
  let userList :=
    map (fun jid : FullJID =>
           mkNode "user"
             {[ "jid" := AttrJID (NewJID (User jid) (DefaultUserServer W)) ]}
             ContentNil) jids in
  mkInfoQuery "usync" "get" ServerJID
    [mkNode "usync"
       (<["sid" := AttrString sid]>
        (<["mode" := AttrString "query"]>
         (<["last" := AttrString "true"]>
          (<["index" := AttrString "0"]>
           (<["context" := AttrString "message"]> ∅)))))
       (ContentNodes
          [mkNode "query" ∅
             (ContentNodes
                [mkNode "devices" {[ "version" := AttrString "2" ]} ContentNil]);
           mkNode "list" ∅ (ContentNodes userList)])].

Definition GetUSyncDevices (jids : list FullJID) (ignorePrimary : bool)
  (c : Client) : result (list FullJID) * Client :=
  let q := usyncQuery (generateRequestID W (trace c)) jids in
  match do_sendIQ q c with
  | (inl e, c1) => (Err (ErrorfW "failed to send usync query: %w" [] (ErrExt e)), c1)
  | (inr res, c1) =>
      let usync := GetChildByTag res "usync" in
      if negb (String.eqb (Tag usync) "usync") then
        (Err (Errorf "unexpected children in response to usync query" []), c1)
      else
        let list := GetChildByTag usync "list" in
        if negb (String.eqb (Tag list) "list") then
          (Err (Errorf "missing list inside usync tag" []), c1)
        else
          (Ok (fold_left (usyncUser (Session_ID c1) ignorePrimary)
                 (GetChildren list) []), c1)
  end.

(** *** [appendDeviceIdentityNode], lines 332-342 *)

Definition appendDeviceIdentityNode (node : Node) (c : Client) : result Node :=
  match proto_Marshal W (PAccount (Session_Account c)) with
  | inl e => Err (ErrorfW "failed to marshal device identity: %w" [] (ErrExt e))
  | inr deviceIdentity =>
      Ok (mkNode (Tag node) (Attrs node)
            (ContentNodes
               (GetChildren node
                ++ [mkNode "device-identity" ∅ (ContentBytes deviceIdentity)])))
  end.

(** *** [encryptMessageForDevice], lines 398-436 *)

(** The node returned for one device. *)
Definition envelopeNode (to : FullJID) (encType : string) (ciphertext : bytes) : Node :=
  mkNode "to" {[ "jid" := AttrJID to ]}
    (ContentNodes
       [mkNode "enc"
          (<["v" := AttrString "2"]> (<["type" := AttrString encType]> ∅))
          (ContentBytes ciphertext)]).

(** The session check with the bundle branch, lines 400-410: the client
    after it, or the error that ends the call. *)
Definition ensureSession (to : FullJID) (bundle : option Bundle) (c : Client)
  : result unit * Client :=
  let addr := JID_SignalAddress W to in
  if negb (ContainsSession c addr) then
    match bundle with
    | Some b =>
        let c1 := log Debug "Processing prekey bundle for" [LJID to] c in
        match builder_ProcessBundle W (trace c1) addr b with
        | inl e =>
            (Err (ErrorfW "failed to process prekey bundle: %w" [] (ErrExt e)),
             emit (EvProcessBundle to b false) c1)
        | inr rec => (Ok tt, StoreSession addr rec (emit (EvProcessBundle to b true) c1))
        end
    | None => (Err ErrNoSession, c)
    end
  else (Ok tt, c).

Definition encryptMessageForDevice (plaintext : bytes) (to : FullJID)
  (bundle : option Bundle) (c : Client) : result (Node * bool) * Client :=
  let addr := JID_SignalAddress W to in
  match ensureSession to bundle c with
  | (Err e, c1) => (Err e, c1)
  | (Ok _, c1) =>
      let padded := padMessage W (trace c1) plaintext in
      match cipher_Encrypt W (trace c1) addr (sessions c1 !! addr) padded with
      | inl e =>
          (Err (ErrorfW "cipher encryption failed: %w" [] (ErrExt e)),
           emit (EvEncrypt to padded None) c1)
      | inr (rec, ciphertext) =>
          let encType :=
            if ctType ciphertext =? PREKEY_TYPE then "pkmsg" else "msg" in
          (Ok (envelopeNode to encType (ctSerialize ciphertext),
               String.eqb encType "pkmsg"),
           StoreSession addr rec (emit (EvEncrypt to padded (Some ciphertext)) c1))
      end
  end.

(** *** [encryptMessageForDevices], lines 344-394 *)

(** The three variables the loops update. *)
Record Fanout := mkFanout
  { participantNodes : list Node;
    includeIdentity : bool;
    retryDevices : list FullJID }.

(** Lines 349-352 and 377-380: the plaintext for one device. *)
Definition selectPlaintext (c : Client) (jid : FullJID)
  (msgPlaintext : bytes) (dsmPlaintext : option bytes) : bytes :=
  match dsmPlaintext with
  | Some dsm => if String.eqb (User jid) (User (Session_ID c)) then dsm else msgPlaintext
  | None => msgPlaintext
  end.

(** The body of the first loop, lines 349-364. *)
Definition firstPassStep (id : string) (msgPlaintext : bytes)
  (dsmPlaintext : option bytes) (jid : FullJID) (st : Fanout) (c : Client)
  : Fanout * Client :=
  let plaintext := selectPlaintext c jid msgPlaintext dsmPlaintext in
  match encryptMessageForDevice plaintext jid None c with
  | (Err e, c1) =>
      if errors_Is_ErrNoSession e then
        (mkFanout (participantNodes st) (includeIdentity st)
           (retryDevices st ++ [jid]), c1)
      else
        (st, log Warn "Failed to encrypt %s for %s: %v"
               [LString id; LJID jid; LErr e] c1)
  | (Ok (encrypted, isPreKey), c1) =>
      (mkFanout (participantNodes st ++ [encrypted])
         (if isPreKey : bool then true else includeIdentity st)
         (retryDevices st), c1)
  end.

Fixpoint firstPass (id : string) (msgPlaintext : bytes)
  (dsmPlaintext : option bytes) (allDevices : list FullJID) (st : Fanout)
  (c : Client) : Fanout * Client :=
  match allDevices with
  | [] => (st, c)
  | jid :: rest =>
      let '(st1, c1) := firstPassStep id msgPlaintext dsmPlaintext jid st c in
      firstPass id msgPlaintext dsmPlaintext rest st1 c1
  end.

(** [bundles[jid]]: a key the map lacks reads as the zero value. *)
Definition bundles_lookup (bundles : gmap FullJID preKeyResp) (jid : FullJID)
  : preKeyResp :=
  match bundles !! jid with
  | Some resp => resp
  | None => mkPreKeyResp None None
  end.

(** The body of the second loop, lines 372-389. *)
Definition retryStep (id : string) (msgPlaintext : bytes)
  (dsmPlaintext : option bytes) (bundles : gmap FullJID preKeyResp)
  (jid : FullJID) (st : Fanout) (c : Client) : Fanout * Client :=
  let resp := bundles_lookup bundles jid in
  match err resp with
  | Some e =>
      (st, log Warn "Failed to fetch prekey for %s: %v"
             [LJID jid; LErr (ErrExt e)] c)
  | None =>
      let plaintext := selectPlaintext c jid msgPlaintext dsmPlaintext in
      match encryptMessageForDevice plaintext jid (bundle resp) c with
      | (Err e, c1) =>
          (st, log Warn "Failed to encrypt %s for %s (retry): %v"
                 [LString id; LJID jid; LErr e] c1)
      | (Ok (encrypted, isPreKey), c1) =>
          (mkFanout (participantNodes st ++ [encrypted])
             (if isPreKey : bool then true else includeIdentity st)
             (retryDevices st), c1)
      end
  end.

Fixpoint retryPass (id : string) (msgPlaintext : bytes)
  (dsmPlaintext : option bytes) (bundles : gmap FullJID preKeyResp)
  (retry : list FullJID) (st : Fanout) (c : Client) : Fanout * Client :=
  match retry with
  | [] => (st, c)
  | jid :: rest =>
      let '(st1, c1) := retryStep id msgPlaintext dsmPlaintext bundles jid st c in
      retryPass id msgPlaintext dsmPlaintext bundles rest st1 c1
  end.

(** [cli.fetchPreKeys]: one request for the whole list. *)
Definition do_fetchPreKeys (users : list FullJID) (c : Client)
  : ext_result (gmap FullJID preKeyResp) * Client :=
  (fetchPreKeys W (trace c) users, emit (EvFetchPreKeys users) c).

Definition encryptMessageForDevices (allDevices : list FullJID) (id : string)
  (msgPlaintext : bytes) (dsmPlaintext : option bytes) (c : Client)
  : (list Node * bool) * Client :=
  let '(st1, c1) :=
    firstPass id msgPlaintext dsmPlaintext allDevices (mkFanout [] false []) c in
  match retryDevices st1 with
  | [] => ((participantNodes st1, includeIdentity st1), c1)
  | _ :: _ =>
      match do_fetchPreKeys (retryDevices st1) c1 with
      | (inl e, c2) =>
          ((participantNodes st1, includeIdentity st1),
           log Warn "Failed to fetch prekeys for %v to retry encryption: %v"
             [LJIDs (retryDevices st1); LErr (ErrExt e)] c2)
      | (inr bundles, c2) =>
          let '(st2, c3) :=
            retryPass id msgPlaintext dsmPlaintext bundles (retryDevices st1) st1 c2 in
          ((participantNodes st2, includeIdentity st2), c3)
      end
  end.

(** *** [sendGroup] and [sendDM], lines 63-172 *)

(** [cli.sendNode]. *)
Definition do_sendNode (node : Node) (c : Client) : option string * Client :=
  (sendNode W (trace c) node, emit (EvSendNode node) c).

(** Lines 124-134 and 161-171: the identity child, then the dispatch. *)
Definition finishSend (node : Node) (includeIdentity : bool) (c : Client)
  : result unit * Client :=
  match (if includeIdentity then appendDeviceIdentityNode node c else Ok node) with
  | Err e => (Err e, c)
  | Ok node1 =>
      match do_sendNode node1 c with
      | (Some e, c1) => (Err (ErrorfW "failed to send message node: %w" [] (ErrExt e)), c1)
      | (None, c1) => (Ok tt, c1)
      end
  end.

(** The node built at lines 111-123. *)
Definition groupNode (to : FullJID) (id : string) (phash : string)
  (participantNodes : list Node) (ciphertext : bytes) : Node :=
  mkNode "message"
    (<["id" := AttrString id]>
     (<["type" := AttrString "text"]>
      (<["to" := AttrJID to]>
       (<["phash" := AttrString phash]> ∅))))
    (ContentNodes
       [mkNode "participants" ∅ (ContentNodes participantNodes);
        mkNode "enc"
          (<["v" := AttrString "2"]> (<["type" := AttrString "skmsg"]> ∅))
          (ContentBytes ciphertext)]).

(** The node built at lines 149-160. *)
Definition dmNode (to : FullJID) (id : string) (participantNodes : list Node) : Node :=
  mkNode "message"
    (<["id" := AttrString id]>
     (<["type" := AttrString "text"]>
      (<["to" := AttrJID to]> ∅)))
    (ContentNodes [mkNode "participants" ∅ (ContentNodes participantNodes)]).

(** What lines 64-108 of [sendGroup] hand to the fan-out. *)
Record GroupPrep := mkGroupPrep
  { gpInfo : GroupInfo;
    gpSkdPlaintext : bytes;
    gpCiphertext : bytes;
    gpDevices : list FullJID }.

(** [sendGroup] up to the device list, lines 64-108. *)
Definition sendGroupPrepare (to : FullJID) (id : string) (message : Message)
  (c : Client) : result GroupPrep * Client :=
  match GetGroupInfo to c with
  | (Err e, c1) => (Err (ErrorfW "failed to get group info: %w" [] e), c1)
  | (Ok groupInfo, c1) =>
  match marshalMessage to message with
  | Err e => (Err e, c1)
  | Ok (plaintext, _) =>
  let senderKeyName :=
    mkSenderKeyName (JID_String W to) (JID_SignalAddress W (Session_ID c1)) in
  let c2 := emit (EvGroupCreate senderKeyName) c1 in
  match groupBuilder_Create W (trace c1) senderKeyName with
  | inl e =>
      (Err (ErrorfW
              "failed to create sender key distribution message to send %s to %s: %w"
              [id; JID_String W to] (ErrExt e)), c2)
  | inr signalSKDMessage =>
  let skdMessage :=
    mkMessage None (Some (mkSKDM (JID_String W to) signalSKDMessage)) in
  match proto_Marshal W (PMessage skdMessage) with
  | inl e =>
      (Err (ErrorfW
              "failed to marshal sender key distribution message to send %s to %s: %w"
              [id; JID_String W to] (ErrExt e)), c2)
  | inr skdPlaintext =>
  let padded := padMessage W (trace c2) plaintext in
  let c3 := emit (EvGroupEncrypt senderKeyName padded) c2 in
  match groupCipher_Encrypt W (trace c2) senderKeyName padded with
  | inl e =>
      (Err (ErrorfW "failed to encrypt group message to send %s to %s: %w"
              [id; JID_String W to] (ErrExt e)), c3)
  | inr ciphertext =>
  let participants := map pFullJID (gParticipants groupInfo) in
  match GetUSyncDevices participants false c3 with
  | (Err e, c4) => (Err (ErrorfW "failed to get device list: %w" [] e), c4)
  | (Ok allDevices, c4) =>
      (Ok (mkGroupPrep groupInfo skdPlaintext ciphertext allDevices), c4)
  end end end end end end.

(** [sendGroup], lines 63-135. *)
Definition sendGroup (to : FullJID) (id : string) (message : Message)
  (c : Client) : result unit * Client :=
  match sendGroupPrepare to id message c with
  | (Err e, c4) => (Err e, c4)
  | (Ok prep, c4) =>
      let participantsStrings :=
        map (fun p => JID_String W (pFullJID p)) (gParticipants (gpInfo prep)) in
      let '((participantNodes, includeIdentity), c5) :=
        encryptMessageForDevices (gpDevices prep) id (gpSkdPlaintext prep) None c4 in
      let node :=
        groupNode to id (participantListHashV2 participantsStrings)
          participantNodes (gpCiphertext prep) in
      finishSend node includeIdentity c5
  end.

(** [sendDM], lines 137-172. *)
Definition sendDM (to : FullJID) (id : string) (message : Message)
  (c : Client) : result unit * Client :=
  match marshalMessage to message with
  | Err e => (Err e, c)
  | Ok (messagePlaintext, deviceSentMessagePlaintext) =>
  match GetUSyncDevices [to; Session_ID c] false c with
  | (Err e, c1) => (Err (ErrorfW "failed to get device list: %w" [] e), c1)
  | (Ok allDevices, c1) =>
  let '((participantNodes, includeIdentity), c2) :=
    encryptMessageForDevices allDevices id messagePlaintext
      deviceSentMessagePlaintext c1 in
  finishSend (dmNode to id participantNodes) includeIdentity c2
  end end.

(** [GenerateMessageID], lines 31-39: [None] is the panic on a failed
    read of the random source. *)
Definition GenerateMessageID (c : Client) : option string :=
  match rand_Read W (trace c) 16 with
  | inl _ => None
  | inr id => Some (hex_EncodeToString id)
  end.

(** [SendMessage], lines 41-55; [None] when the id generation panics. *)
Definition SendMessage (to : FullJID) (id : string) (message : Message)
  (c : Client) : option (result unit * Client) :=
  if AD to then
    Some (Err (Errorf "message recipient must be non-AD JID" []), c)
  else
    match (if Nat.eqb (String.length id) 0 then GenerateMessageID c else Some id) with
    | None => None
    | Some id1 =>
        if String.eqb (Server to) (GroupServer W) then Some (sendGroup to id1 message c)
        else Some (sendDM to id1 message c)
    end.

End Send.

(** ** The participant hash as the specification words it *)

Definition string_le (s t : string) : Prop := String.leb s t = true.

#[global] Instance string_le_dec : RelDecision string_le.
Proof. intros s t. unfold string_le. apply _. Defined.

(** Sort the identifiers in byte order, concatenate them with no
    separator, digest the bytes, keep six bytes, encode them in base64
    without padding, and put the version tag in front. *)
Definition participant_hash_spec (participant_ids : list string) : string :=
  let sorted := merge_sort string_le participant_ids in
  let joined := fold_right String.append "" sorted in
  let digest := GoLib.sha256_Sum256 (GoLib.bytes_of_string joined) in
  "2:" +:+ GoLib.base64_RawStdEncoding_EncodeToString (take 6 digest).

(** ** Observations on traces and nodes *)

(** The events a run added to the trace. *)
Definition new_events (c c' : Client) : list Event :=
  drop (length (trace c)) (trace c').

Definition count_events (p : Event -> bool) (evs : list Event) : nat :=
  length (List.filter p evs).

Definition is_fetch (ev : Event) : bool :=
  match ev with EvFetchPreKeys _ => true | _ => false end.

Definition is_bundle_for (jid : FullJID) (ev : Event) : bool :=
  match ev with
  | EvProcessBundle to _ _ => bool_decide (to = jid)
  | _ => false
  end.

Definition is_bundle (ev : Event) : bool :=
  match ev with EvProcessBundle _ _ _ => true | _ => false end.

Definition is_dispatch (ev : Event) : bool :=
  match ev with EvSendNode _ => true | _ => false end.

(** Calls that reach the network. *)
Definition is_network (ev : Event) : bool :=
  match ev with
  | EvSendIQ _ | EvSendNode _ | EvFetchPreKeys _ => true
  | _ => false
  end.

(** Calls into the signal library. *)
Definition is_encryption (ev : Event) : bool :=
  match ev with
  | EvProcessBundle _ _ _ | EvEncrypt _ _ _ | EvGroupCreate _
  | EvGroupEncrypt _ _ => true
  | _ => false
  end.

Definition is_log (ev : Event) : bool :=
  match ev with EvLog _ _ _ => true | _ => false end.

Definition count_children (tag : string) (n : Node) : nat :=
  length (List.filter (fun ch => String.eqb (Tag ch) tag) (GetChildren n)).

Definition attr_is (n : Node) (key value : string) : bool :=
  match Attrs n !! key with
  | Some (AttrString s) => String.eqb s value
  | _ => false
  end.

(** An [enc] child of type [skmsg]. *)
Definition is_skmsg_entry (ch : Node) : bool :=
  String.eqb (Tag ch) "enc" && attr_is ch "type" "skmsg".

Definition count_skmsg (n : Node) : nat :=
  length (List.filter is_skmsg_entry (GetChildren n)).

(** The per-device entries of a message node. *)
Definition participants_of (n : Node) : list Node :=
  GetChildren (GetChildByTag n "participants").

(** The destination of an envelope and whether it is marked [pkmsg]. *)
Definition envelope_to (envelope : Node) : option FullJID :=
  match Attrs envelope !! "jid" with
  | Some (AttrJID j) => Some j
  | _ => None
  end.

Definition envelope_pkmsg (envelope : Node) : bool :=
  existsb (fun ch => String.eqb (Tag ch) "enc" && attr_is ch "type" "pkmsg")
    (GetChildren envelope).

(** ** A small world to run the code in

    A directory and a key server given as tables, a protobuf encoder that
    can be made to fail, and a signal library whose session record is one
    byte: [1] for a session with a pending prekey message, [0] for an
    acknowledged one; any other record fails to encrypt. *)

Module Sim.

Definition server : string := "s.whatsapp.net".

Definition decimal (z : Z) : string :=
  pretty (Z.to_N z).

(** [FullJID.String]. *)
Definition jidString (j : FullJID) : string :=
  if AD j then
    User j +:+ "." +:+ decimal (Agent j) +:+ ":" +:+ decimal (Device j)
      +:+ "@" +:+ Server j
  else if Nat.eqb (String.length (User j)) 0 then Server j
  else User j +:+ "@" +:+ Server j.

(** [FullJID.SignalAddress]. *)
Definition signalAddress (j : FullJID) : SignalAddress :=
  (if Agent j =? 0 then User j else User j +:+ "_" +:+ decimal (Agent j), Device j).

Definition device (user : string) (index : Z) : FullJID :=
  mkJID user 0 index server true.

Definition userNode (entry : string * list Z) : Node :=
  mkNode "user" {[ "jid" := AttrJID (NewJID (fst entry) server) ]}
    (ContentNodes
       [mkNode "devices" ∅
          (ContentNodes
             [mkNode "device-list" ∅
                (ContentNodes
                   (map (fun i => mkNode "device"
                                    {[ "id" := AttrString (decimal i) ]} ContentNil)
                      (snd entry)))])]).

Definition usyncResponse (directory : list (string * list Z)) : Node :=
  mkNode "iq" ∅
    (ContentNodes
       [mkNode "usync" ∅
          (ContentNodes
             [mkNode "list" ∅ (ContentNodes (map userNode directory))])]).

Definition groupResponse (members : list string) : Node :=
  mkNode "iq" ∅
    (ContentNodes
       [mkNode "group"
          (<["id" := AttrString "1234"]>
           (<["creator" := AttrJID (NewJID "alice" server)]>
            (<["subject" := AttrString "friends"]>
             (<["s_t" := AttrString "1630000000"]>
              (<["s_o" := AttrJID (NewJID "alice" server)]>
               (<["creation" := AttrString "1620000000"]> ∅))))))
          (ContentNodes
             (map (fun u => mkNode "participant"
                              {[ "jid" := AttrJID (NewJID u server) ]} ContentNil)
                members))]).

Definition encode (m : proto_Message) : bytes :=
  match m with
  | PMessage m =>
      10 :: match Conversation m with
            | Some s => GoLib.bytes_of_string s
            | None => []
            end
  | PDeviceSentMessage d => 18 :: GoLib.bytes_of_string (DestinationJid d)
  | PAccount a => 26 :: Details a
  end.

Definition encrypt (record : option SessionRecord) (padded : bytes)
  : ext_result (SessionRecord * CiphertextMessage) :=
  match record with
  | Some [1] => inr ([1], mkCiphertext 3 (3 :: padded))
  | Some [0] => inr ([0], mkCiphertext 2 (2 :: padded))
  | _ => inl "session record is unusable"
  end.

Definition world
  (marshals : proto_Message -> bool)
  (group : option (list string))
  (directory : option (list (string * list Z)))
  (keys : ext_result (list (FullJID * preKeyResp)))
  (transport_ok : bool) : World :=
  {| GroupServer := "g.us";
     DefaultUserServer := server;
     JID_String := jidString;
     JID_SignalAddress := signalAddress;
     XMLString := Tag;
     proto_Marshal := fun m =>
       if marshals m then inr (encode m) else inl "cannot marshal";
     rand_Read := fun _ n => inr (repeat 7 n);
     generateRequestID := fun tr => "req-" +:+ decimal (Z.of_nat (length tr));
     sendIQ := fun _ q =>
       if String.eqb (Namespace q) "usync" then
         match directory with
         | Some d => inr (usyncResponse d)
         | None => inl "usync timed out"
         end
       else
         match group with
         | Some members => inr (groupResponse members)
         | None => inl "group query timed out"
         end;
     sendNode := fun _ _ => if transport_ok then None else Some "not connected";
     fetchPreKeys := fun _ _ =>
       match keys with
       | inl e => inl e
       | inr table => inr (list_to_map table)
       end;
     padMessage := fun _ b => b ++ [1];
     builder_ProcessBundle := fun _ _ b =>
       match b with
       | [] => inl "invalid bundle"
       | _ => inr [1]
       end;
     cipher_Encrypt := fun _ _ record padded => encrypt record padded;
     groupBuilder_Create := fun _ _ => inr [5];
     groupCipher_Encrypt := fun _ _ padded => inr (4 :: padded) |}.

Definition alice0 : FullJID := device "alice" 0.
Definition alice1 : FullJID := device "alice" 1.
Definition bob0 : FullJID := device "bob" 0.
Definition carol0 : FullJID := device "carol" 0.

Definition account : ADVSignedDeviceIdentity := mkAccount [1; 2] [3] [4].

(** The client registered as alice's device 0, with the given sessions. *)
Definition client (records : list (SignalAddress * SessionRecord)) : Client :=
  mkClient alice0 account (list_to_map records) [].

Definition hello : Message := mkMessage (Some "hello") None.

Definition always (m : proto_Message) : bool := true.
Definition never (m : proto_Message) : bool := false.
Definition only_identity_fails (m : proto_Message) : bool :=
  match m with PAccount _ => false | _ => true end.

Definition directory_ab : list (string * list Z) :=
  [("alice", [0; 1]); ("bob", [0])].

End Sim.

(** [c'] is [c] after a run that added the events [evs]: the registered
    address and identity are those of [c]. *)
Definition run_from (c c' : Client) (evs : list Event) : Prop :=
  trace c' = trace c ++ evs
  /\ Session_ID c' = Session_ID c
  /\ Session_Account c' = Session_Account c.

(** Events of the per-device encryption. *)
Definition is_device_event (ev : Event) : bool :=
  match ev with
  | EvProcessBundle _ _ _ | EvEncrypt _ _ _ | EvLog _ _ _ => true
  | _ => false
  end.

(** Events of the first pass: no bundle is processed there. *)
Definition is_first_pass_event (ev : Event) : bool :=
  match ev with
  | EvEncrypt _ _ _ | EvLog _ _ _ => true
  | _ => false
  end.

(** [n] is the envelope of a ciphertext that [cipher.Encrypt] returned for
    [jid] in [evs], marked [pkmsg] when the ciphertext is of the prekey
    type and [msg] otherwise. *)
Definition envelope_of (evs : list Event) (jid : FullJID) (n : Node) : Prop :=
  exists padded ct,
    In (EvEncrypt jid padded (Some ct)) evs
    /\ n = envelopeNode jid
             (if ctType ct =? PREKEY_TYPE then "pkmsg" else "msg")
             (ctSerialize ct)
    /\ envelope_pkmsg n = (ctType ct =? PREKEY_TYPE).

(** What one pass over a device list adds to the loop variables. *)
Record pass_outcome (devices : list FullJID) (evs : list Event)
  (st st' : Fanout) (deferred : list FullJID) (added : list Node) : Prop :=
  { po_retry : retryDevices st' = retryDevices st ++ deferred;
    po_nodes : participantNodes st' = participantNodes st ++ added;
    po_flag : includeIdentity st' = includeIdentity st || existsb envelope_pkmsg added;
    po_envelopes :
      Forall (fun n => exists jid, In jid devices /\ envelope_of evs jid n) added }.

(** Events of the fan-out: the per-device encryption and the key fetch. *)
Definition is_fanout_event (ev : Event) : bool :=
  is_device_event ev || is_fetch ev.

(** How often a device occurs in a device list. *)
Definition occurrences (devices : list FullJID) (jid : FullJID) : nat :=
  count_occ FullJID_eq_dec devices jid.

(** C6 as the specification words it: an envelope of the fan-out is
    marked [pkmsg] exactly when a bundle was processed for its device
    during that fan-out. *)
Definition pkmsg_iff_bundle_processed (W : World) (allDevices : list FullJID)
  (id : string) (msgPlaintext : bytes) (dsmPlaintext : option bytes)
  (c : Client) : Prop :=
  let r := encryptMessageForDevices W allDevices id msgPlaintext dsmPlaintext c in
  forall n jid,
    In n r.1.1 -> envelope_to n = Some jid ->
    (envelope_pkmsg n = true
     <-> exists b, In (EvProcessBundle jid b true) (new_events c r.2)).

(** What [finishSend] can return: success, or the error of the identity
    marshalling, or the error of the transport. *)
Definition finish_result (W : World) (c : Client) (r : result unit) : Prop :=
  r = Ok tt
  \/ (exists e, proto_Marshal W (PAccount (Session_Account c)) = inl e
               /\ r = Err (ErrorfW "failed to marshal device identity: %w" []
                             (ErrExt e)))
  \/ (exists e, r = Err (ErrorfW "failed to send message node: %w" [] (ErrExt e))).

(** Events of the part of a send that precedes the fan-out. *)
Definition is_prepare_event (ev : Event) : bool :=
  match ev with
  | EvSendIQ _ | EvLog _ _ _ | EvGroupCreate _ | EvGroupEncrypt _ _ => true
  | _ => false
  end.

(** Events of an information query: the query and log lines. *)
Definition is_query_event (ev : Event) : bool :=
  match ev with
  | EvSendIQ _ | EvLog _ _ _ => true
  | _ => false
  end.

Definition is_Err {A} (r : result A) : bool :=
  match r with Err _ => true | Ok _ => false end.

(** C8 as the specification words it, for one of the two send paths: a
    marshal failure makes the send return an error with no call into the
    signal library and no network activity. *)
Definition marshal_failure_before_any_activity (W : World)
  (send : World -> FullJID -> string -> Message -> Client -> result unit * Client)
  (to : FullJID) (id : string) (message : Message) (c : Client) : Prop :=
  is_Err (marshalMessage W to message) = true ->
  is_Err (send W to id message c).1 = true
  /\ Forall (fun ev => is_encryption ev = false /\ is_network ev = false)
       (new_events c (send W to id message c).2).

(** ** The directory answer as a list of addresses *)

(** The address a well-formed device entry of user [jid] stands for. *)
Definition deviceEntry (W : World) (jid : FullJID) (device : Node) : option FullJID :=
  let '(deviceID, ok, _) := au_GetInt64 (AttrGetter device) "id" true in
  if String.eqb (Tag device) "device" && ok
  then Some (NewADJID W (User jid) 0 (byte_of_int64 deviceID))
  else None.

(** The addresses listed under one well-formed user entry. *)
Definition userEntries (W : World) (user : Node) : list FullJID :=
  match Attrs user !! "jid" with
  | Some (AttrJID jid) =>
      let deviceNode := GetChildByTag user "devices" in
      let deviceList := GetChildByTag deviceNode "device-list" in
      if String.eqb (Tag user) "user"
         && String.eqb (Tag deviceNode) "devices"
         && String.eqb (Tag deviceList) "device-list"
      then omap (deviceEntry W jid) (GetChildren deviceList)
      else []
  | _ => []
  end.

(** All the addresses a directory answer lists, in its order. *)
Definition usyncEntries (W : World) (users : list Node) : list FullJID :=
  flat_map (userEntries W) users.

(** The filter of line 323. *)
Definition keepsDevice (own : FullJID) (ignorePrimary : bool) (d : FullJID) : bool :=
  ((0 <? Device d) || negb ignorePrimary) && negb (bool_decide (d = own)).

(** The nodes dispatched in a trace, in order. *)
Definition dispatched (evs : list Event) : list Node :=
  omap (fun ev => match ev with EvSendNode n => Some n | _ => None end) evs.

(** * Properties *)

(** ** Test vectors for the library models *)

Example sha256_abc :
  hex_EncodeToString (GoLib.sha256_Sum256 (GoLib.bytes_of_string "abc"))
  = "ba7816bf8f01cfea414140de5dae2223b00361a396177a9cb410ff61f20015ad".
Proof. vm_compute. reflexivity. Qed.

Example sha256_empty :
  hex_EncodeToString (GoLib.sha256_Sum256 [])
  = "e3b0c44298fc1c149afbf4c8996fb92427ae41e4649b934ca495991b7852b855".
Proof. vm_compute. reflexivity. Qed.

Example sha256_two_blocks :
  hex_EncodeToString
    (GoLib.sha256_Sum256
       (GoLib.bytes_of_string
          "abcdbcdecdefdefgefghfghighijhijkijkljklmklmnlmnomnopnopq"))
  = "248d6a61d20638b8e5c026930c3e6039a33ce45964ff2167f6ecedd419db06c1".
Proof. vm_compute. reflexivity. Qed.

Example K256_ends :
  length GoLib.K256 = 64%nat
  /\ nth 0 GoLib.K256 0 = 0x428a2f98 /\ nth 63 GoLib.K256 0 = 0xc67178f2.
Proof. vm_compute. repeat split. Qed.

Example base64_foobar :
  map (fun s => GoLib.base64_RawStdEncoding_EncodeToString (GoLib.bytes_of_string s))
    ["f"; "fo"; "foo"; "foob"; "fooba"; "foobar"]
  = ["Zg"; "Zm8"; "Zm9v"; "Zm9vYg"; "Zm9vYmE"; "Zm9vYmFy"].
Proof. vm_compute. reflexivity. Qed.

Example ParseInt64_samples :
  map strconv_ParseInt64 ["0"; "17"; "-3"; "+5"; ""; "-"; "1x"; "9223372036854775808"]
  = [Some 0; Some 17; Some (-3); Some 5; None; None; None; None].
Proof. vm_compute. reflexivity. Qed.

(** ** The byte order of strings *)

Section StringOrder.

Lemma compare_refl (s : string) : String.compare s s = Eq.
Proof.
  induction s as [|a s IH]; simpl; [reflexivity|].
  assert (Ascii.compare a a = Eq) as ->; [|exact IH].
  unfold Ascii.compare. apply N.compare_refl.
Qed.

Lemma compare_Lt_trans (s t u : string) :
  String.compare s t = Lt -> String.compare t u = Lt -> String.compare s u = Lt.
Proof.
  intros H1 H2.
  apply OrderedTypeEx.String_as_OT.cmp_lt in H1, H2.
  apply OrderedTypeEx.String_as_OT.cmp_lt.
  eapply OrderedTypeEx.String_as_OT.lt_trans; eauto.
Qed.

#[local] Instance string_le_total : Total string_le.
Proof. intros s t. apply String.leb_total. Qed.

#[local] Instance string_le_antisym : AntiSymm (=) string_le.
Proof. intros s t. apply String.leb_antisym. Qed.

#[local] Instance string_le_trans : Transitive string_le.
Proof.
  intros s t u. unfold string_le, String.leb.
  destruct (String.compare s t) eqn:Hst; [| |discriminate];
    destruct (String.compare t u) eqn:Htu; try discriminate; intros _ _.
  - apply String.compare_eq_iff in Hst, Htu. subst. by rewrite compare_refl.
  - apply String.compare_eq_iff in Hst. subst. by rewrite Htu.
  - apply String.compare_eq_iff in Htu. subst. by rewrite Hst.
  - by rewrite (compare_Lt_trans _ _ _ Hst Htu).
Qed.

(** [x < y] failing means [y <= x]. *)
Lemma ltb_false_le (s t : string) : String.ltb t s = false -> string_le s t.
Proof.
  unfold String.ltb, string_le, String.leb. rewrite (String.compare_antisym t s).
  by destruct (String.compare s t).
Qed.

Lemma ltb_true_le (s t : string) : String.ltb t s = true -> string_le t s.
Proof.
  unfold String.ltb, string_le, String.leb. by destruct (String.compare t s).
Qed.

End StringOrder.

(** ** [sort.Strings] sorts *)

Section SortStrings.

#[local] Existing Instances string_le_total string_le_antisym string_le_trans.

Lemma sort_insert_Permutation (s : string) (l : list string) :
  GoLib.sort_insert s l ≡ₚ s :: l.
Proof.
  induction l as [|t l IH]; simpl; [done|].
  destruct (String.ltb t s); [|done].
  rewrite IH. apply perm_swap.
Qed.

Lemma sort_Strings_Permutation (l : list string) : GoLib.sort_Strings l ≡ₚ l.
Proof.
  induction l as [|s l IH]; simpl; [done|].
  by rewrite sort_insert_Permutation, IH.
Qed.

Lemma sort_insert_HdRel (s t : string) (l : list string) :
  string_le t s -> HdRel string_le t l -> HdRel string_le t (GoLib.sort_insert s l).
Proof.
  intros Hts Hl. destruct l as [|u l]; simpl; [by constructor|].
  inversion_clear Hl. destruct (String.ltb u s); by constructor.
Qed.

Lemma sort_insert_Sorted (s : string) (l : list string) :
  Sorted string_le l -> Sorted string_le (GoLib.sort_insert s l).
Proof.
  induction 1 as [|t l Hl IH Hhd]; simpl; [by repeat constructor|].
  destruct (String.ltb t s) eqn:Hlt.
  - constructor; [done|]. apply sort_insert_HdRel; [|done]. by apply ltb_true_le.
  - constructor; [by constructor|]. constructor. by apply ltb_false_le.
Qed.

Lemma sort_Strings_Sorted (l : list string) : Sorted string_le (GoLib.sort_Strings l).
Proof.
  induction l as [|s l IH]; simpl; [constructor|]. by apply sort_insert_Sorted.
Qed.

(** The insertion sort and the merge sort agree: a list has one sorted
    arrangement. *)
Lemma sort_Strings_merge_sort (l : list string) :
  GoLib.sort_Strings l = merge_sort string_le l.
Proof.
  apply (Sorted_unique string_le).
  - apply sort_Strings_Sorted.
  - apply (Sorted_merge_sort string_le).
  - by rewrite sort_Strings_Permutation, merge_sort_Permutation.
Qed.

Lemma sort_Strings_perm_invariant (l1 l2 : list string) :
  l1 ≡ₚ l2 -> GoLib.sort_Strings l1 = GoLib.sort_Strings l2.
Proof.
  intros Hp. apply (Sorted_unique string_le); try apply sort_Strings_Sorted.
  by rewrite !sort_Strings_Permutation.
Qed.

Lemma append_empty_r (s : string) : s +:+ "" = s.
Proof.
  induction s as [|a s IH]; [done|].
  change (String a (s +:+ "") = String a s). by rewrite IH.
Qed.

Lemma strings_Join_empty_sep (l : list string) :
  GoLib.strings_Join l "" = fold_right String.append "" l.
Proof.
  induction l as [|s l IH]; [done|].
  destruct l as [|t l]; [simpl; symmetry; apply append_empty_r|].
  change (GoLib.strings_Join (s :: t :: l) "")
    with (s +:+ ("" +:+ GoLib.strings_Join (t :: l) "")).
  by rewrite IH.
Qed.

End SortStrings.

(** ** C4: the participant hash *)

(** C4. [participantListHashV2] is the hash the specification describes
    (sort in byte order, concatenate without separator, SHA-256, first six
    bytes, unpadded base64, the tag "2:" in front), and two sequences that
    are permutations of one another get the same hash. *)
Theorem participant_hash_reference_and_permutation (ids ids' : list string) :
  ids ≡ₚ ids' ->
  participantListHashV2 ids = participant_hash_spec ids
  /\ participantListHashV2 ids = participantListHashV2 ids'.
Proof.
  intros Hp. split.
  - unfold participantListHashV2, participant_hash_spec.
    by rewrite strings_Join_empty_sep, sort_Strings_merge_sort.
  - unfold participantListHashV2. by rewrite (sort_Strings_perm_invariant _ _ Hp).
Qed.

Lemma participant_hash_witness :
  ["b@s"; "a@s"] ≡ₚ ["a@s"; "b@s"]
  /\ participantListHashV2 ["b@s"; "a@s"] = participant_hash_spec ["b@s"; "a@s"]
  /\ participantListHashV2 ["b@s"; "a@s"] = participantListHashV2 ["a@s"; "b@s"].
Proof.
  split; [apply perm_swap|].
  apply (participant_hash_reference_and_permutation ["b@s"; "a@s"] ["a@s"; "b@s"]).
  apply perm_swap.
Defined.

(** The scenario of the specification: the hash of ["b@s"; "a@s"] is the
    one of the sorted concatenation "a@sb@s", not of "b@sa@s". *)
Example participant_hash_scenario :
  participantListHashV2 ["b@s"; "a@s"] = "2:MZBSK5C3"
  /\ "2:" +:+ GoLib.base64_RawStdEncoding_EncodeToString
                (take 6 (GoLib.sha256_Sum256 (GoLib.bytes_of_string "a@sb@s")))
     = "2:MZBSK5C3"
  /\ "2:" +:+ GoLib.base64_RawStdEncoding_EncodeToString
                (take 6 (GoLib.sha256_Sum256 (GoLib.bytes_of_string "b@sa@s")))
     <> "2:MZBSK5C3".
Proof. vm_compute. repeat split; [reflexivity..|discriminate]. Qed.

(** ** Traces *)

Section Traces.

Lemma run_from_refl (c : Client) : run_from c c [].
Proof. unfold run_from. by rewrite app_nil_r. Qed.

Lemma run_from_trans (c c1 c2 : Client) (e1 e2 : list Event) :
  run_from c c1 e1 -> run_from c1 c2 e2 -> run_from c c2 (e1 ++ e2).
Proof.
  intros (H1 & H2 & H3) (H4 & H5 & H6). unfold run_from.
  rewrite H4, H1, H5, H2, H6, H3, app_assoc. done.
Qed.

Lemma run_from_emit (ev : Event) (c : Client) : run_from c (emit ev c) [ev].
Proof. done. Qed.

Lemma run_from_log lvl format args (c : Client) :
  run_from c (log lvl format args c) [EvLog lvl format args].
Proof. done. Qed.

Lemma run_from_StoreSession a r (c : Client) : run_from c (StoreSession a r c) [].
Proof. unfold run_from. simpl. by rewrite app_nil_r. Qed.

Lemma run_from_new_events (c c' : Client) (evs : list Event) :
  run_from c c' evs -> new_events c c' = evs.
Proof.
  intros (H & _). unfold new_events. rewrite H.
  by rewrite drop_app_length.
Qed.

Lemma count_events_app p (e1 e2 : list Event) :
  count_events p (e1 ++ e2) = (count_events p e1 + count_events p e2)%nat.
Proof. unfold count_events. by rewrite List.filter_app, length_app. Qed.

Lemma count_events_none p (evs : list Event) :
  Forall (fun ev => p ev = false) evs -> count_events p evs = 0%nat.
Proof.
  unfold count_events. induction 1 as [|ev evs Hev _ IH]; simpl; [done|].
  by rewrite Hev.
Qed.

Lemma Forall_event_class (p q : Event -> bool) (evs : list Event) :
  (forall ev, p ev = true -> q ev = false) ->
  Forall (fun ev => p ev = true) evs -> Forall (fun ev => q ev = false) evs.
Proof. intros Hpq H. eapply Forall_impl; [exact H|exact Hpq]. Qed.

End Traces.

(** ** The per-device encryption *)

Section Device.

Variable W : World.

Lemma ContainsSession_emit ev (c : Client) a :
  ContainsSession (emit ev c) a = ContainsSession c a.
Proof. done. Qed.

Lemma ContainsSession_StoreSession a r (c : Client) a' :
  ContainsSession c a' = true -> ContainsSession (StoreSession a r c) a' = true.
Proof.
  unfold ContainsSession. rewrite !bool_decide_eq_true. simpl.
  intros [x Hx]. destruct (decide (a = a')) as [->|Hne].
  - rewrite lookup_insert_eq. eauto.
  - rewrite lookup_insert_ne by done. eauto.
Qed.

Lemma ContainsSession_StoreSession_eq a r (c : Client) :
  ContainsSession (StoreSession a r c) a = true.
Proof.
  unfold ContainsSession. rewrite bool_decide_eq_true. simpl.
  rewrite lookup_insert_eq. eauto.
Qed.

(** The session check ends with [ErrNoSession] exactly when the store has
    no session for the address and the caller gave no bundle; the client
    is then untouched. *)
Lemma ensureSession_NoSession (to : FullJID) (b : option Bundle) (c : Client) :
  (ContainsSession c (JID_SignalAddress W to) = false /\ b = None
   /\ ensureSession W to b c = (Err ErrNoSession, c))
  \/ ((ContainsSession c (JID_SignalAddress W to) = true \/ is_Some b)
      /\ forall e c', ensureSession W to b c = (Err e, c') ->
                      errors_Is_ErrNoSession e = false).
Proof.
  unfold ensureSession.
  destruct (ContainsSession c (JID_SignalAddress W to)) eqn:Hs; simpl.
  - right. split; [by left|]. intros e c' [=].
  - destruct b as [b0|]; [|left; done].
    right. split; [right; eauto|]. intros e c'.
    destruct (builder_ProcessBundle W _ _ b0); intros [= <- <-]; done.
Qed.

(** What the session check leaves behind. *)
Lemma ensureSession_run (to : FullJID) (b : option Bundle) (c : Client) :
  exists evs,
    run_from c (ensureSession W to b c).2 evs
    /\ Forall (fun ev => is_device_event ev = true) evs
    /\ (count_events (is_bundle_for to) evs
         <= match b with Some _ => 1 | None => 0 end)%nat
    /\ (forall jid, jid <> to -> count_events (is_bundle_for jid) evs = 0%nat)
    /\ (forall a, ContainsSession c a = true ->
                  ContainsSession (ensureSession W to b c).2 a = true)
    /\ (forall u, (ensureSession W to b c).1 = Ok u ->
                  ContainsSession (ensureSession W to b c).2
                    (JID_SignalAddress W to) = true)
    /\ (b = None -> evs = []).
Proof.
  unfold ensureSession.
  destruct (ContainsSession c (JID_SignalAddress W to)) eqn:Hs; simpl.
  { exists []. split; [apply run_from_refl|]. repeat split; auto.
    unfold count_events. destruct b; simpl; lia. }
  destruct b as [b0|]; simpl.
  2:{ exists []. split; [apply run_from_refl|]. repeat split; auto. discriminate. }
  destruct (builder_ProcessBundle W _ _ b0) as [e|rec]; simpl.
  - exists [EvLog Debug "Processing prekey bundle for" [LJID to];
            EvProcessBundle to b0 false].
    split; [by unfold run_from; simpl; rewrite <- app_assoc|].
    repeat split; auto.
    + unfold count_events. simpl. rewrite bool_decide_eq_true_2 by done. done.
    + intros jid Hne. unfold count_events. simpl.
      by rewrite bool_decide_eq_false_2.
    + discriminate.
    + discriminate.
  - exists [EvLog Debug "Processing prekey bundle for" [LJID to];
            EvProcessBundle to b0 true].
    split; [by unfold run_from; simpl; rewrite <- app_assoc|].
    repeat split; auto.
    + unfold count_events. simpl. rewrite bool_decide_eq_true_2 by done. done.
    + intros jid Hne. unfold count_events. simpl.
      by rewrite bool_decide_eq_false_2.
    + intros a Ha. apply ContainsSession_StoreSession. done.
    + intros u _. apply ContainsSession_StoreSession_eq.
    + discriminate.
Qed.

(** [encryptMessageForDevice] returns [ErrNoSession] exactly when the
    store has no session for the address and no bundle was given. *)
Lemma encryptMessageForDevice_NoSession (pt : bytes) (to : FullJID)
  (b : option Bundle) (c : Client) :
  (ContainsSession c (JID_SignalAddress W to) = false /\ b = None
   /\ encryptMessageForDevice W pt to b c = (Err ErrNoSession, c))
  \/ ((ContainsSession c (JID_SignalAddress W to) = true \/ is_Some b)
      /\ forall e c', encryptMessageForDevice W pt to b c = (Err e, c') ->
                      errors_Is_ErrNoSession e = false).
Proof.
  unfold encryptMessageForDevice.
  destruct (ensureSession_NoSession to b c) as [(Hs & Hb & Hr)|(Hor & Hr)].
  - left. by rewrite Hr.
  - right. split; [done|]. intros e c'.
    destruct (ensureSession W to b c) as [[u|e0] c1] eqn:He.
    + destruct (cipher_Encrypt W _ _ _ _) as [e1|[rec ct]]; intros [= <- <-]; done.
    + intros [= <- <-]. eapply Hr. reflexivity.
Qed.

Lemma encryptMessageForDevice_run (pt : bytes) (to : FullJID)
  (b : option Bundle) (c : Client) :
  exists evs,
    run_from c (encryptMessageForDevice W pt to b c).2 evs
    /\ Forall (fun ev => is_device_event ev = true) evs
    /\ (count_events (is_bundle_for to) evs
         <= match b with Some _ => 1 | None => 0 end)%nat
    /\ (forall jid, jid <> to -> count_events (is_bundle_for jid) evs = 0%nat)
    /\ (forall a, ContainsSession c a = true ->
                  ContainsSession (encryptMessageForDevice W pt to b c).2 a = true)
    /\ (forall node isPreKey,
          (encryptMessageForDevice W pt to b c).1 = Ok (node, isPreKey) ->
          exists padded ct,
            In (EvEncrypt to padded (Some ct)) evs
            /\ node = envelopeNode to
                        (if ctType ct =? PREKEY_TYPE then "pkmsg" else "msg")
                        (ctSerialize ct)
            /\ isPreKey = (ctType ct =? PREKEY_TYPE))
    /\ (b = None -> Forall (fun ev => is_first_pass_event ev = true) evs).
Proof.
  unfold encryptMessageForDevice.
  destruct (ensureSession_run to b c)
    as (evs & Hrun & Hcls & Hcnt & Hoth & Hmono & _ & Hnil).
  destruct (ensureSession W to b c) as [[u|e0] c1] eqn:He; simpl in *.
  2:{ exists evs. split; [exact Hrun|]. do 4 (split; [done|]).
      split; [intros ? ? [=]|]. intros ->%Hnil. constructor. }
  destruct (cipher_Encrypt W _ _ _ _) as [e1|[rec ct]] eqn:Hc; simpl.
  - exists (evs ++ [EvEncrypt to (padMessage W (trace c1) pt) None]).
    split; [eapply run_from_trans; [exact Hrun|apply run_from_emit]|].
    split; [apply Forall_app; split; [done|by repeat constructor]|].
    split; [rewrite count_events_app; unfold count_events at 2; simpl; lia|].
    split; [intros jid Hne; rewrite count_events_app, (Hoth _ Hne); done|].
    split; [intros a Ha; by apply Hmono|]. split; [discriminate|].
    intros ->%Hnil. by repeat constructor.
  - exists (evs ++ [EvEncrypt to (padMessage W (trace c1) pt) (Some ct)]).
    split.
    { eapply run_from_trans; [exact Hrun|].
      done. }
    split; [apply Forall_app; split; [done|by repeat constructor]|].
    split; [rewrite count_events_app; unfold count_events at 2; simpl; lia|].
    split; [intros jid Hne; rewrite count_events_app, (Hoth _ Hne); done|].
    split.
    { intros a Ha. apply ContainsSession_StoreSession.
      rewrite ContainsSession_emit. by apply Hmono. }
    split; [|intros ->%Hnil; by repeat constructor].
    intros node isPreKey [= <- <-].
    exists (padMessage W (trace c1) pt), ct.
    split; [apply in_or_app; right; by left|]. split; [done|].
    unfold PREKEY_TYPE. by destruct (ctType ct =? 3).
Qed.

End Device.

(** ** The two passes of the fan-out *)

Section Passes.

Variable W : World.

Lemma envelope_pkmsg_envelopeNode (to : FullJID) (ty : string) (b : bytes) :
  envelope_pkmsg (envelopeNode to ty b) = String.eqb ty "pkmsg".
Proof.
  unfold envelope_pkmsg, envelopeNode, attr_is. simpl.
  rewrite lookup_insert_ne by done. rewrite lookup_insert_eq.
  by rewrite orb_false_r.
Qed.

Lemma envelope_of_app (e1 e2 : list Event) (jid : FullJID) (n : Node) :
  envelope_of e1 jid n \/ envelope_of e2 jid n -> envelope_of (e1 ++ e2) jid n.
Proof.
  intros [(p & ct & Hin & Hn)|(p & ct & Hin & Hn)]; exists p, ct;
    (split; [apply in_or_app; auto|done]).
Qed.

Lemma pass_outcome_nil (st : Fanout) : pass_outcome [] [] st st [] [].
Proof. split; simpl; rewrite ?app_nil_r, ?orb_false_r; auto. Qed.

Lemma pass_outcome_cons jid rest e1 e2 st st1 st2 d1 d2 a1 a2 :
  pass_outcome [jid] e1 st st1 d1 a1 ->
  pass_outcome rest e2 st1 st2 d2 a2 ->
  pass_outcome (jid :: rest) (e1 ++ e2) st st2 (d1 ++ d2) (a1 ++ a2).
Proof.
  intros [R1 N1 F1 E1] [R2 N2 F2 E2]. split.
  - by rewrite R2, R1, app_assoc.
  - by rewrite N2, N1, app_assoc.
  - by rewrite F2, F1, existsb_app, orb_assoc.
  - apply Forall_app. split.
    + eapply Forall_impl; [exact E1|]. intros n (j & Hj & He).
      exists j. split; [destruct Hj as [->|[]]; by left|].
      apply envelope_of_app. auto.
    + eapply Forall_impl; [exact E2|]. intros n (j & Hj & He).
      exists j. split; [by right|]. apply envelope_of_app. auto.
Qed.

Lemma envelope_pkmsg_of_ct (to : FullJID) (ct : CiphertextMessage) :
  envelope_pkmsg
    (envelopeNode to (if ctType ct =? PREKEY_TYPE then "pkmsg" else "msg")
       (ctSerialize ct))
  = (ctType ct =? PREKEY_TYPE).
Proof. rewrite envelope_pkmsg_envelopeNode. by destruct (ctType ct =? PREKEY_TYPE). Qed.

Lemma pass_outcome_drop jid evs (st : Fanout) : pass_outcome [jid] evs st st [] [].
Proof. split; simpl; rewrite ?app_nil_r, ?orb_false_r; auto. Qed.

Lemma pass_outcome_append jid evs (st : Fanout) node isPreKey padded ct :
  In (EvEncrypt jid padded (Some ct)) evs ->
  node = envelopeNode jid (if ctType ct =? PREKEY_TYPE then "pkmsg" else "msg")
           (ctSerialize ct) ->
  isPreKey = (ctType ct =? PREKEY_TYPE) ->
  pass_outcome [jid] evs st
    (mkFanout (participantNodes st ++ [node])
       (if isPreKey : bool then true else includeIdentity st) (retryDevices st))
    [] [node].
Proof.
  intros Hin Hnode Hpk. split; simpl.
  - by rewrite app_nil_r.
  - done.
  - rewrite orb_false_r, Hnode, envelope_pkmsg_of_ct, <- Hpk.
    destruct isPreKey; simpl; [by rewrite orb_true_r|by rewrite orb_false_r].
  - constructor; [|constructor]. exists jid. split; [by left|].
    exists padded, ct. split; [done|]. split; [done|].
    rewrite Hnode. apply envelope_pkmsg_of_ct.
Qed.

(** One device of the first pass: it is deferred (and nothing happened),
    dropped, or its envelope is appended. *)
Lemma firstPassStep_run id msg dsm (jid : FullJID) (st : Fanout) (c : Client) :
  exists evs deferred added,
    run_from c (firstPassStep W id msg dsm jid st c).2 evs
    /\ Forall (fun ev => is_first_pass_event ev = true) evs
    /\ (forall a, ContainsSession c a = true ->
                  ContainsSession (firstPassStep W id msg dsm jid st c).2 a = true)
    /\ pass_outcome [jid] evs st (firstPassStep W id msg dsm jid st c).1 deferred added
    /\ (deferred = []
        \/ deferred = [jid] /\ ContainsSession c (JID_SignalAddress W jid) = false).
Proof.
  unfold firstPassStep.
  set (pt := selectPlaintext c jid msg dsm).
  destruct (encryptMessageForDevice_NoSession W pt jid None c)
    as [(Hs & _ & Hr)|(Hor & Hr)].
  - rewrite Hr. simpl. exists [], [jid], [].
    split; [apply run_from_refl|]. split; [constructor|]. split; [auto|].
    split; [|by right].
    split; simpl; rewrite ?app_nil_r, ?orb_false_r; auto.
  - destruct (encryptMessageForDevice_run W pt jid None c)
      as (evs & Hrun & Hcls & Hcnt & _ & Hmono & Hok & Hfp).
    specialize (Hfp eq_refl).
    destruct (encryptMessageForDevice W pt jid None c)
      as [[[node isPreKey]|e] c1] eqn:He; simpl in *.
    + destruct (Hok _ _ eq_refl) as (padded & ct & Hin & Hnode & Hpk).
      exists evs, [], [node].
      split; [done|]. split; [done|]. split; [done|].
      split; [by eapply pass_outcome_append|by left].
    + rewrite (Hr e c1 eq_refl). simpl.
      exists (evs ++ [EvLog Warn "Failed to encrypt %s for %s: %v"
                        [LString id; LJID jid; LErr e]]), [], [].
      split; [eapply run_from_trans; [exact Hrun|apply run_from_log]|].
      split; [apply Forall_app; split; [done|by repeat constructor]|].
      split; [done|]. split; [apply pass_outcome_drop|by left].
Qed.

(** One device of the retry pass: at most one bundle is processed, for
    that device. *)
Lemma retryStep_run id msg dsm bundles (jid : FullJID) (st : Fanout) (c : Client) :
  exists evs added,
    run_from c (retryStep W id msg dsm bundles jid st c).2 evs
    /\ Forall (fun ev => is_device_event ev = true) evs
    /\ (count_events (is_bundle_for jid) evs <= 1)%nat
    /\ (forall j, j <> jid -> count_events (is_bundle_for j) evs = 0%nat)
    /\ (forall a, ContainsSession c a = true ->
                  ContainsSession (retryStep W id msg dsm bundles jid st c).2 a = true)
    /\ pass_outcome [jid] evs st (retryStep W id msg dsm bundles jid st c).1 [] added.
Proof.
  unfold retryStep.
  destruct (err (bundles_lookup bundles jid)) as [e|]; simpl.
  { exists [EvLog Warn "Failed to fetch prekey for %s: %v" [LJID jid; LErr (ErrExt e)]], [].
    split; [apply run_from_log|]. split; [by repeat constructor|].
    split; [unfold count_events; simpl; lia|]. split; [done|]. split; [done|].
    apply pass_outcome_drop. }
  set (pt := selectPlaintext c jid msg dsm).
  set (b := bundle (bundles_lookup bundles jid)).
  destruct (encryptMessageForDevice_run W pt jid b c)
    as (evs & Hrun & Hcls & Hcnt & Hoth & Hmono & Hok & _).
  assert (count_events (is_bundle_for jid) evs <= 1)%nat as Hcnt1
    by (destruct b; lia).
  destruct (encryptMessageForDevice W pt jid b c)
    as [[[node isPreKey]|e] c1] eqn:He; simpl in *.
  - destruct (Hok _ _ eq_refl) as (padded & ct & Hin & Hnode & Hpk).
    exists evs, [node]. do 5 (split; [done|]). by eapply pass_outcome_append.
  - exists (evs ++ [EvLog Warn "Failed to encrypt %s for %s (retry): %v"
                      [LString id; LJID jid; LErr e]]), [].
    split; [eapply run_from_trans; [exact Hrun|apply run_from_log]|].
    split; [apply Forall_app; split; [done|by repeat constructor]|].
    split; [rewrite count_events_app; unfold count_events at 2; simpl; lia|].
    split; [intros j Hj; rewrite count_events_app, (Hoth _ Hj); done|].
    split; [done|]. apply pass_outcome_drop.
Qed.

Lemma occurrences_app (l1 l2 : list FullJID) (jid : FullJID) :
  occurrences (l1 ++ l2) jid = (occurrences l1 jid + occurrences l2 jid)%nat.
Proof. apply count_occ_app. Qed.

Lemma occurrences_In (l : list FullJID) (jid : FullJID) :
  In jid l <-> (0 < occurrences l jid)%nat.
Proof. apply count_occ_In. Qed.

Lemma occurrences_cons (l : list FullJID) (j jid : FullJID) :
  occurrences (j :: l) jid = (occurrences [j] jid + occurrences l jid)%nat.
Proof. apply (occurrences_app [j] l). Qed.

Lemma firstPass_run id msg dsm (devices : list FullJID) (st : Fanout) (c : Client) :
  exists evs deferred added,
    run_from c (firstPass W id msg dsm devices st c).2 evs
    /\ Forall (fun ev => is_first_pass_event ev = true) evs
    /\ (forall a, ContainsSession c a = true ->
                  ContainsSession (firstPass W id msg dsm devices st c).2 a = true)
    /\ pass_outcome devices evs st (firstPass W id msg dsm devices st c).1
         deferred added
    /\ (forall jid, (occurrences deferred jid <= occurrences devices jid)%nat)
    /\ (forall jid, In jid deferred ->
                    ContainsSession c (JID_SignalAddress W jid) = false).
Proof.
  revert st c. induction devices as [|jid rest IH]; intros st c; cbn [firstPass].
  { exists [], [], []. split; [apply run_from_refl|]. split; [constructor|].
    split; [auto|]. split; [apply pass_outcome_nil|]. split; [done|]. intros ? []. }
  destruct (firstPassStep_run id msg dsm jid st c)
    as (e1 & d1 & a1 & Hrun1 & Hcls1 & Hmono1 & Hout1 & Hd1).
  destruct (firstPassStep W id msg dsm jid st c) as [st1 c1]; cbn [fst snd] in *.
  destruct (IH st1 c1) as (e2 & d2 & a2 & Hrun2 & Hcls2 & Hmono2 & Hout2 & Hocc2 & Hd2).
  exists (e1 ++ e2), (d1 ++ d2), (a1 ++ a2).
  split; [by eapply run_from_trans|].
  split; [by apply Forall_app|].
  split; [auto|].
  split; [by eapply pass_outcome_cons|].
  split.
  - intros j. rewrite occurrences_app, (occurrences_cons rest jid j).
    specialize (Hocc2 j). destruct Hd1 as [->|[-> _]]; simpl; lia.
  - intros j [Hj|Hj]%in_app_or.
    + destruct Hd1 as [->|[-> Hs]]; [destruct Hj|].
      destruct Hj as [<-|[]]. exact Hs.
    + specialize (Hd2 j Hj). specialize (Hmono1 (JID_SignalAddress W j)).
      destruct (ContainsSession c (JID_SignalAddress W j)); [|done].
      rewrite Hmono1 in Hd2; done.
Qed.

Lemma retryPass_run id msg dsm bundles (retry : list FullJID) (st : Fanout)
  (c : Client) :
  exists evs added,
    run_from c (retryPass W id msg dsm bundles retry st c).2 evs
    /\ Forall (fun ev => is_device_event ev = true) evs
    /\ (forall j, (count_events (is_bundle_for j) evs <= occurrences retry j)%nat)
    /\ (forall a, ContainsSession c a = true ->
                  ContainsSession (retryPass W id msg dsm bundles retry st c).2 a = true)
    /\ pass_outcome retry evs st (retryPass W id msg dsm bundles retry st c).1
         [] added.
Proof.
  revert st c. induction retry as [|jid rest IH]; intros st c; cbn [retryPass].
  { exists [], []. split; [apply run_from_refl|]. split; [constructor|].
    split; [intros j; unfold count_events; simpl; lia|]. split; [auto|].
    apply pass_outcome_nil. }
  destruct (retryStep_run id msg dsm bundles jid st c)
    as (e1 & a1 & Hrun1 & Hcls1 & Hcnt1 & Hoth1 & Hmono1 & Hout1).
  destruct (retryStep W id msg dsm bundles jid st c) as [st1 c1]; cbn [fst snd] in *.
  destruct (IH st1 c1) as (e2 & a2 & Hrun2 & Hcls2 & Hcnt2 & Hmono2 & Hout2).
  exists (e1 ++ e2), (a1 ++ a2).
  split; [by eapply run_from_trans|].
  split; [by apply Forall_app|].
  split.
  - intros j. rewrite count_events_app, (occurrences_cons rest jid j).
    specialize (Hcnt2 j). unfold occurrences at 1. simpl.
    destruct (FullJID_eq_dec jid j) as [->|Hne]; [lia|].
    rewrite (Hoth1 j) by congruence. lia.
  - split; [auto|]. apply (pass_outcome_cons jid rest e1 e2 st st1 _ [] [] a1 a2); done.
Qed.

End Passes.

(** ** The fan-out as a whole *)

Section Fanout.

Variable W : World.

Lemma first_pass_no_fetch (evs : list Event) :
  Forall (fun ev => is_first_pass_event ev = true) evs ->
  count_events is_fetch evs = 0%nat.
Proof.
  intros H. apply count_events_none. eapply Forall_impl; [exact H|].
  by intros [].
Qed.

Lemma first_pass_no_bundle (evs : list Event) (j : FullJID) :
  Forall (fun ev => is_first_pass_event ev = true) evs ->
  count_events (is_bundle_for j) evs = 0%nat.
Proof.
  intros H. apply count_events_none. eapply Forall_impl; [exact H|].
  by intros [].
Qed.

Lemma device_no_fetch (evs : list Event) :
  Forall (fun ev => is_device_event ev = true) evs ->
  count_events is_fetch evs = 0%nat.
Proof.
  intros H. apply count_events_none. eapply Forall_impl; [exact H|].
  by intros [].
Qed.

Lemma first_pass_is_fanout (evs : list Event) :
  Forall (fun ev => is_first_pass_event ev = true) evs ->
  Forall (fun ev => is_fanout_event ev = true) evs.
Proof. intros H. eapply Forall_impl; [exact H|]. by intros []. Qed.

Lemma device_is_fanout (evs : list Event) :
  Forall (fun ev => is_device_event ev = true) evs ->
  Forall (fun ev => is_fanout_event ev = true) evs.
Proof. intros H. eapply Forall_impl; [exact H|]. by intros []. Qed.

Lemma first_pass_no_fetch_event (evs : list Event) users :
  Forall (fun ev => is_first_pass_event ev = true) evs ->
  ~ In (EvFetchPreKeys users) evs.
Proof. intros H Hin. rewrite List.Forall_forall in H. by apply H in Hin. Qed.

Lemma device_no_fetch_event (evs : list Event) users :
  Forall (fun ev => is_device_event ev = true) evs ->
  ~ In (EvFetchPreKeys users) evs.
Proof. intros H Hin. rewrite List.Forall_forall in H. by apply H in Hin. Qed.

(** The whole fan-out: the events it adds, the envelopes and the flag it
    returns, and the devices it asks keys for. *)
Lemma encryptMessageForDevices_run (devices : list FullJID) id msg dsm (c : Client) :
  exists evs added,
    run_from c (encryptMessageForDevices W devices id msg dsm c).2 evs
    /\ Forall (fun ev => is_fanout_event ev = true) evs
    /\ (count_events is_fetch evs <= 1)%nat
    /\ (forall j, (count_events (is_bundle_for j) evs <= occurrences devices j)%nat)
    /\ (forall a, ContainsSession c a = true ->
          ContainsSession (encryptMessageForDevices W devices id msg dsm c).2 a = true)
    /\ (encryptMessageForDevices W devices id msg dsm c).1
       = (added, existsb envelope_pkmsg added)
    /\ Forall (fun n => exists jid, In jid devices /\ envelope_of evs jid n) added
    /\ (forall users, In (EvFetchPreKeys users) evs ->
          users <> []
          /\ forall jid, In jid users ->
               In jid devices /\ ContainsSession c (JID_SignalAddress W jid) = false)
    /\ (count_events is_fetch evs = 0%nat ->
        Forall (fun ev => is_first_pass_event ev = true) evs).
Proof.
  unfold encryptMessageForDevices.
  destruct (firstPass_run W id msg dsm devices (mkFanout [] false []) c)
    as (e1 & d1 & a1 & Hrun1 & Hcls1 & Hmono1 & [R1 N1 F1 E1] & Hocc1 & Hd1).
  destruct (firstPass W id msg dsm devices (mkFanout [] false []) c) as [st1 c1].
  cbn [fst snd retryDevices participantNodes includeIdentity] in *.
  rewrite app_nil_l in R1, N1. rewrite orb_false_l in F1.
  assert (forall j, In j d1 -> In j devices) as Hsub.
  { intros j Hj. apply occurrences_In. apply occurrences_In in Hj.
    specialize (Hocc1 j). lia. }
  destruct (retryDevices st1) as [|j0 rest] eqn:Hretry.
  { exists e1, a1. cbn [fst snd].
    split; [done|]. split; [by apply first_pass_is_fanout|].
    split; [rewrite first_pass_no_fetch by done; lia|].
    split; [intros j; rewrite first_pass_no_bundle by done; lia|].
    split; [done|]. split; [by rewrite N1, F1|]. split; [done|].
    split; [|done].
    intros users Hin. by apply first_pass_no_fetch_event in Hin. }
  assert (retryDevices st1 <> []) as Hne by (by rewrite Hretry).
  rewrite <- Hretry in *. clear j0 rest Hretry. unfold do_fetchPreKeys.
  destruct (fetchPreKeys W (trace c1) (retryDevices st1)) as [e|bundles].
  { exists (e1 ++ [EvFetchPreKeys (retryDevices st1);
                   EvLog Warn "Failed to fetch prekeys for %v to retry encryption: %v"
                     [LJIDs (retryDevices st1); LErr (ErrExt e)]]), a1.
    cbn [fst snd].
    split.
    { eapply run_from_trans; [exact Hrun1|].
      unfold run_from. simpl. by rewrite <- app_assoc. }
    split; [apply Forall_app; split;
            [by apply first_pass_is_fanout|by repeat constructor]|].
    split; [rewrite count_events_app, (first_pass_no_fetch e1) by done;
            unfold count_events; simpl; lia|].
    split; [intros j; rewrite count_events_app, (first_pass_no_bundle e1) by done;
            unfold count_events; simpl; lia|].
    split; [done|]. split; [by rewrite N1, F1|].
    split.
    { eapply Forall_impl; [exact E1|]. intros n (j & Hj & He).
      exists j. split; [done|]. apply envelope_of_app. auto. }
    split.
    2:{ rewrite count_events_app. unfold count_events at 2. simpl. lia. }
    intros users [Hin|Hin]%in_app_or.
    - by apply first_pass_no_fetch_event in Hin.
    - destruct Hin as [[= <-]|[[=]|[]]]. split; [done|].
      intros jid Hjid. rewrite R1 in Hjid. auto. }
  destruct (retryPass_run W id msg dsm bundles (retryDevices st1) st1
              (emit (EvFetchPreKeys (retryDevices st1)) c1))
    as (e2 & a2 & Hrun2 & Hcls2 & Hcnt2 & Hmono2 & [R2 N2 F2 E2]).
  destruct (retryPass W id msg dsm bundles (retryDevices st1) st1
              (emit (EvFetchPreKeys (retryDevices st1)) c1)) as [st2 c3].
  cbn [fst snd] in *.
  exists (e1 ++ [EvFetchPreKeys (retryDevices st1)] ++ e2), (a1 ++ a2).
  split.
  { eapply run_from_trans; [exact Hrun1|].
    eapply run_from_trans; [apply run_from_emit|exact Hrun2]. }
  split.
  { apply Forall_app; split; [by apply first_pass_is_fanout|].
    apply Forall_app; split; [by repeat constructor|by apply device_is_fanout]. }
  split.
  { rewrite !count_events_app, (first_pass_no_fetch e1), (device_no_fetch e2) by done.
    unfold count_events. simpl. lia. }
  split.
  { intros j. rewrite !count_events_app, (first_pass_no_bundle e1) by done.
    specialize (Hcnt2 j). specialize (Hocc1 j). rewrite R1 in Hcnt2.
    unfold count_events at 1. simpl. lia. }
  split; [intros a Ha; apply Hmono2; rewrite ContainsSession_emit; auto|].
  split; [by rewrite N2, N1, F2, F1, existsb_app|].
  split.
  { apply Forall_app; split.
    - eapply Forall_impl; [exact E1|]. intros n (j & Hj & He).
      exists j. split; [done|]. apply envelope_of_app. auto.
    - eapply Forall_impl; [exact E2|]. intros n (j & Hj & He).
      exists j. split; [apply Hsub; by rewrite <- R1|].
      apply envelope_of_app. right. apply envelope_of_app. auto. }
  split.
  2:{ rewrite !count_events_app. unfold count_events at 2. simpl. lia. }
  intros users [Hin|[Hin|Hin]%in_app_or]%in_app_or.
  - by apply first_pass_no_fetch_event in Hin.
  - destruct Hin as [[= <-]|[]]. split; [done|].
    intros jid Hjid. rewrite R1 in Hjid. auto.
  - by apply device_no_fetch_event in Hin.
Qed.

End Fanout.

(** ** C1: one key fetch, one bundle per device *)

(** C1. For a device list without repetition, the fan-out issues at most
    one prekey fetch, whatever the number of devices, and processes at
    most one bundle for each device. *)
Theorem fanout_one_fetch_one_bundle_per_device (W : World)
  (allDevices : list FullJID) (id : string) (msgPlaintext : bytes)
  (dsmPlaintext : option bytes) (c : Client) :
  NoDup allDevices ->
  let evs :=
    new_events c
      (encryptMessageForDevices W allDevices id msgPlaintext dsmPlaintext c).2 in
  (count_events is_fetch evs <= 1)%nat
  /\ forall jid, (count_events (is_bundle_for jid) evs <= 1)%nat.
Proof.
  intros Hnd.
  destruct (encryptMessageForDevices_run W allDevices id msgPlaintext dsmPlaintext c)
    as (evs & added & Hrun & _ & Hfetch & Hbundle & _).
  cbn zeta. rewrite (run_from_new_events _ _ _ Hrun).
  split; [exact Hfetch|]. intros jid. specialize (Hbundle jid).
  apply NoDup_ListNoDup in Hnd.
  pose proof (proj1 (NoDup_count_occ FullJID_eq_dec allDevices) Hnd jid) as H1.
  unfold occurrences in Hbundle. lia.
Qed.

Lemma fanout_one_fetch_witness :
  NoDup [Sim.bob0; Sim.carol0]
  /\ let evs :=
       new_events (Sim.client [])
         (encryptMessageForDevices
            (Sim.world Sim.always None None
               (inr [(Sim.bob0, mkPreKeyResp (Some [9]) None);
                     (Sim.carol0, mkPreKeyResp (Some [8]) None)]) true)
            [Sim.bob0; Sim.carol0] "id" [1; 2] None (Sim.client [])).2 in
     (count_events is_fetch evs <= 1)%nat
     /\ forall jid, (count_events (is_bundle_for jid) evs <= 1)%nat.
Proof.
  assert (NoDup [Sim.bob0; Sim.carol0]) as Hnd.
  { apply (bool_decide_unpack _). vm_compute. exact I. }
  split; [exact Hnd|].
  exact (fanout_one_fetch_one_bundle_per_device _ _ _ _ _ _ Hnd).
Defined.

(** The run of the witness: two devices without session, one fetch for
    both, one bundle each, two envelopes marked [pkmsg]. *)
Example fanout_two_new_devices :
  let r :=
    encryptMessageForDevices
      (Sim.world Sim.always None None
         (inr [(Sim.bob0, mkPreKeyResp (Some [9]) None);
               (Sim.carol0, mkPreKeyResp (Some [8]) None)]) true)
      [Sim.bob0; Sim.carol0] "id" [1; 2] None (Sim.client []) in
  List.filter (fun ev => negb (is_log ev)) (trace r.2)
  = [EvFetchPreKeys [Sim.bob0; Sim.carol0];
     EvProcessBundle Sim.bob0 [9] true;
     EvEncrypt Sim.bob0 [1; 2; 1] (Some (mkCiphertext 3 [3; 1; 2; 1]));
     EvProcessBundle Sim.carol0 [8] true;
     EvEncrypt Sim.carol0 [1; 2; 1] (Some (mkCiphertext 3 [3; 1; 2; 1]))]
  /\ map envelope_to r.1.1 = [Some Sim.bob0; Some Sim.carol0]
  /\ map envelope_pkmsg r.1.1 = [true; true]
  /\ r.1.2 = true.
Proof. vm_compute. repeat split. Qed.

(** With a device listed twice and a bundle the library rejects, the
    bundle is processed once per occurrence: the bound of C1 is by
    occurrence in the list. *)
Example fanout_repeated_device :
  let r :=
    encryptMessageForDevices
      (Sim.world Sim.always None None
         (inr [(Sim.bob0, mkPreKeyResp (Some []) None)]) true)
      [Sim.bob0; Sim.bob0] "id" [1; 2] None (Sim.client []) in
  count_events (is_bundle_for Sim.bob0) (trace r.2) = 2%nat
  /\ count_events is_fetch (trace r.2) = 1%nat.
Proof. vm_compute. repeat split. Qed.

(** In general a device gets at most as many bundles as it has
    occurrences in the list. *)
Lemma fanout_bundles_by_occurrence (W : World) (allDevices : list FullJID)
  id msg dsm (c : Client) (jid : FullJID) :
  (count_events (is_bundle_for jid)
     (new_events c (encryptMessageForDevices W allDevices id msg dsm c).2)
   <= occurrences allDevices jid)%nat.
Proof.
  destruct (encryptMessageForDevices_run W allDevices id msg dsm c)
    as (evs & added & Hrun & _ & _ & Hbundle & _).
  rewrite (run_from_new_events _ _ _ Hrun). apply Hbundle.
Qed.

(** ** C2: a device with a session is never deferred *)

(** C2. A device whose session is in the store is not put in the retry
    list and is in no key fetch; [encryptMessageForDevice] returns
    [ErrNoSession] exactly when the store has no session and no bundle is
    given, so a call that is given a bundle, as in the retry pass, never
    returns it. *)
Theorem session_never_deferred (W : World) (allDevices : list FullJID)
  (id : string) (msgPlaintext : bytes) (dsmPlaintext : option bytes)
  (c : Client) (jid : FullJID) :
  ContainsSession c (JID_SignalAddress W jid) = true ->
  ~ In jid (retryDevices
              (firstPass W id msgPlaintext dsmPlaintext allDevices
                 (mkFanout [] false []) c).1)
  /\ (forall users,
        In (EvFetchPreKeys users)
          (new_events c
             (encryptMessageForDevices W allDevices id msgPlaintext dsmPlaintext c).2) ->
        ~ In jid users)
  /\ (forall pt to b c0 e c',
        encryptMessageForDevice W pt to b c0 = (Err e, c') ->
        errors_Is_ErrNoSession e = true ->
        ContainsSession c0 (JID_SignalAddress W to) = false /\ b = None)
  /\ (forall pt to c0,
        ContainsSession c0 (JID_SignalAddress W to) = false ->
        encryptMessageForDevice W pt to None c0 = (Err ErrNoSession, c0))
  /\ (forall pt to b0 c0 e c',
        encryptMessageForDevice W pt to (Some b0) c0 = (Err e, c') ->
        errors_Is_ErrNoSession e = false).
Proof.
  intros Hs. split; [|split; [|split; [|split]]].
  - destruct (firstPass_run W id msgPlaintext dsmPlaintext allDevices
                (mkFanout [] false []) c)
      as (e1 & d1 & a1 & _ & _ & _ & [R1 _ _ _] & _ & Hd1).
    rewrite R1. simpl. intros Hin. apply Hd1 in Hin. congruence.
  - destruct (encryptMessageForDevices_run W allDevices id msgPlaintext
                dsmPlaintext c) as (evs & added & Hrun & _ & _ & _ & _ & _ & _ & Hf & _).
    rewrite (run_from_new_events _ _ _ Hrun). intros users Hin Hjid.
    destruct (Hf users Hin) as [_ Hu]. destruct (Hu jid Hjid). congruence.
  - intros pt to b c0 e c' He Hno.
    destruct (encryptMessageForDevice_NoSession W pt to b c0)
      as [(H1 & H2 & _)|(_ & Hr)]; [done|].
    rewrite (Hr e c' He) in Hno. discriminate.
  - intros pt to c0 Hs0.
    destruct (encryptMessageForDevice_NoSession W pt to None c0)
      as [(_ & _ & Hr)|([Hc|[x Hx]] & _)]; [done|congruence|discriminate].
  - intros pt to b0 c0 e c' He.
    destruct (encryptMessageForDevice_NoSession W pt to (Some b0) c0)
      as [(_ & Hb & _)|(_ & Hr)]; [discriminate|]. eapply Hr, He.
Qed.

Lemma session_never_deferred_witness :
  let W := Sim.world Sim.always None None
             (inr [(Sim.carol0, mkPreKeyResp (Some [8]) None)]) true in
  let c := Sim.client [(Sim.signalAddress Sim.bob0, [0])] in
  ContainsSession c (JID_SignalAddress W Sim.bob0) = true
  /\ retryDevices
       (firstPass W "id" [1; 2] None [Sim.bob0; Sim.carol0] (mkFanout [] false []) c).1
     = [Sim.carol0]
  /\ ~ In Sim.bob0
       (retryDevices
          (firstPass W "id" [1; 2] None [Sim.bob0; Sim.carol0]
             (mkFanout [] false []) c).1)
  /\ forall users,
       In (EvFetchPreKeys users)
         (new_events c
            (encryptMessageForDevices W [Sim.bob0; Sim.carol0] "id" [1; 2] None c).2) ->
       ~ In Sim.bob0 users.
Proof.
  intros W c.
  assert (ContainsSession c (JID_SignalAddress W Sim.bob0) = true) as Hs
    by (vm_compute; reflexivity).
  split; [exact Hs|]. split; [vm_compute; reflexivity|].
  pose proof (session_never_deferred W [Sim.bob0; Sim.carol0] "id" [1; 2] None
                c Sim.bob0 Hs) as (H1 & H2 & _).
  split; [exact H1|exact H2].
Defined.

(** When every device has a session no key fetch is issued at all. *)
Lemma fanout_all_sessions_no_fetch (W : World) (allDevices : list FullJID)
  id msg dsm (c : Client) :
  (forall jid, In jid allDevices ->
               ContainsSession c (JID_SignalAddress W jid) = true) ->
  Forall (fun ev => is_fetch ev = false)
    (new_events c (encryptMessageForDevices W allDevices id msg dsm c).2).
Proof.
  intros Hall.
  destruct (encryptMessageForDevices_run W allDevices id msg dsm c)
    as (evs & added & Hrun & _ & _ & _ & _ & _ & _ & Hf & _).
  rewrite (run_from_new_events _ _ _ Hrun).
  apply List.Forall_forall. intros ev Hin.
  destruct ev as [| |users| | | | |]; try done.
  destruct (Hf users Hin) as [Hne Hu].
  destruct users as [|j rest]; [done|].
  destruct (Hu j (or_introl eq_refl)) as [Hj Hno].
  rewrite (Hall j Hj) in Hno. discriminate.
Qed.

(** The retry pass reads a device the key server left out of its answer
    as the zero entry: no error and no bundle.  The call for it is then
    made without a bundle and returns [ErrNoSession] again; the device is
    dropped. *)
Example retry_without_entry :
  let W := Sim.world Sim.always None None (inr []) true in
  let c := Sim.client [] in
  retryStep W "id" [1; 2] None ∅ Sim.bob0 (mkFanout [] false [Sim.bob0]) c
  = (mkFanout [] false [Sim.bob0],
     log Warn "Failed to encrypt %s for %s (retry): %v"
       [LString "id"; LJID Sim.bob0; LErr ErrNoSession] c).
Proof. vm_compute. reflexivity. Qed.

(** ** The end of a send *)

Section Finish.

Variable W : World.

Lemma appendDeviceIdentityNode_children (node node' : Node) (c : Client) :
  appendDeviceIdentityNode W node c = Ok node' ->
  exists deviceIdentity,
    proto_Marshal W (PAccount (Session_Account c)) = inr deviceIdentity
    /\ Tag node' = Tag node /\ Attrs node' = Attrs node
    /\ GetChildren node'
       = GetChildren node ++ [mkNode "device-identity" ∅ (ContentBytes deviceIdentity)].
Proof.
  unfold appendDeviceIdentityNode.
  destruct (proto_Marshal W _) as [e|d]; intros [= <-]. by exists d.
Qed.

(** [finishSend] dispatches at most one node: the node it was given, with
    the identity child behind its children when the flag is set. *)
Lemma finishSend_run (node : Node) (incl : bool) (c : Client) :
  finish_result W c (finishSend W node incl c).1
  /\ ((exists node',
         run_from c (finishSend W node incl c).2 [EvSendNode node']
         /\ (if incl then appendDeviceIdentityNode W node c = Ok node'
             else node' = node)
         /\ (finishSend W node incl c).1
            = match sendNode W (trace c) node' with
              | Some e => Err (ErrorfW "failed to send message node: %w" [] (ErrExt e))
              | None => Ok tt
              end)
      \/ (incl = true /\ (finishSend W node incl c).2 = c
          /\ exists e, appendDeviceIdentityNode W node c = Err e
                       /\ (finishSend W node incl c).1 = Err e)).
Proof.
  unfold finishSend, finish_result.
  destruct incl.
  - destruct (appendDeviceIdentityNode W node c) as [node'|e] eqn:Ha.
    + unfold do_sendNode. split.
      * destruct (sendNode W (trace c) node'); eauto.
      * left. exists node'.
        destruct (sendNode W (trace c) node'); (split; [apply run_from_emit|done]).
    + split.
      * right. left. unfold appendDeviceIdentityNode in Ha.
        destruct (proto_Marshal W _) as [e0|d]; [|discriminate].
        injection Ha as <-. eauto.
      * right. eauto.
  - unfold do_sendNode. split.
    + destruct (sendNode W (trace c) node); eauto.
    + left. exists node.
      destruct (sendNode W (trace c) node); (split; [apply run_from_emit|done]).
Qed.

End Finish.

(** ** C10: the key fetch fails as a whole *)

(** C10. When the one key fetch of a fan-out fails, the deferred devices
    are dropped: the fan-out returns the envelopes and the flag of the
    first pass, nothing is encrypted after the fetch, and the send goes on
    to assemble and dispatch its node; what it returns is the result of
    that dispatch, not the fetch error. *)
Theorem fetch_failure_keeps_first_pass (W : World) (allDevices : list FullJID)
  (id : string) (msgPlaintext : bytes) (dsmPlaintext : option bytes)
  (c : Client) (e : string) :
  let fp :=
    firstPass W id msgPlaintext dsmPlaintext allDevices (mkFanout [] false []) c in
  let r := encryptMessageForDevices W allDevices id msgPlaintext dsmPlaintext c in
  retryDevices fp.1 <> [] ->
  fetchPreKeys W (trace fp.2) (retryDevices fp.1) = inl e ->
  r.1 = (participantNodes fp.1, includeIdentity fp.1)
  /\ new_events fp.2 r.2
     = [EvFetchPreKeys (retryDevices fp.1);
        EvLog Warn "Failed to fetch prekeys for %v to retry encryption: %v"
          [LJIDs (retryDevices fp.1); LErr (ErrExt e)]]
  /\ sessions r.2 = sessions fp.2
  /\ (forall to message c0,
        marshalMessage W to message = Ok (msgPlaintext, dsmPlaintext) ->
        GetUSyncDevices W [to; Session_ID c0] false c0 = (Ok allDevices, c) ->
        sendDM W to id message c0
        = finishSend W (dmNode to id (participantNodes fp.1))
            (includeIdentity fp.1) r.2
        /\ finish_result W r.2 (sendDM W to id message c0).1)
  /\ (forall to message c0 prep,
        sendGroupPrepare W to id message c0 = (Ok prep, c) ->
        gpDevices prep = allDevices ->
        gpSkdPlaintext prep = msgPlaintext ->
        dsmPlaintext = None ->
        sendGroup W to id message c0
        = finishSend W
            (groupNode to id
               (participantListHashV2
                  (map (fun p => JID_String W (pFullJID p))
                     (gParticipants (gpInfo prep))))
               (participantNodes fp.1) (gpCiphertext prep))
            (includeIdentity fp.1) r.2
        /\ finish_result W r.2 (sendGroup W to id message c0).1).
Proof.
  intros fp r Hne Hfetch.
  assert (r = ((participantNodes fp.1, includeIdentity fp.1),
               log Warn "Failed to fetch prekeys for %v to retry encryption: %v"
                 [LJIDs (retryDevices fp.1); LErr (ErrExt e)]
                 (emit (EvFetchPreKeys (retryDevices fp.1)) fp.2))) as Hr.
  { subst r. unfold encryptMessageForDevices. fold fp.
    destruct fp as [st1 c1]. cbn [fst snd] in *.
    destruct (retryDevices st1) as [|j rest] eqn:Hretry; [done|].
    unfold do_fetchPreKeys. rewrite Hfetch. done. }
  split; [by rewrite Hr|]. split.
  { rewrite Hr. unfold new_events. simpl.
    rewrite <- app_assoc. by rewrite drop_app_length. }
  split; [by rewrite Hr|]. split.
  - intros to message c0 Hm Hu.
    assert (sendDM W to id message c0
            = finishSend W (dmNode to id (participantNodes fp.1))
                (includeIdentity fp.1) r.2) as Hs.
    { unfold sendDM. rewrite Hm, Hu. fold r. by rewrite Hr. }
    split; [exact Hs|]. rewrite Hs. apply finishSend_run.
  - intros to message c0 prep Hp Hd Hskd ->.
    assert (sendGroup W to id message c0
            = finishSend W
                (groupNode to id
                   (participantListHashV2
                      (map (fun p => JID_String W (pFullJID p))
                         (gParticipants (gpInfo prep))))
                   (participantNodes fp.1) (gpCiphertext prep))
                (includeIdentity fp.1) r.2) as Hs.
    { unfold sendGroup. rewrite Hp, Hd, Hskd. fold r. by rewrite Hr. }
    split; [exact Hs|]. rewrite Hs. apply finishSend_run.
Qed.

Lemma fetch_failure_witness :
  let W := Sim.world Sim.always None (Some Sim.directory_ab)
             (inl "prekey request timed out") true in
  let c0 := Sim.client [(Sim.signalAddress Sim.alice1, [0])] in
  let to := NewJID "bob" Sim.server in
  let c := (GetUSyncDevices W [to; Session_ID c0] false c0).2 in
  let msg := Sim.encode (PMessage Sim.hello) in
  let dsm := Some (Sim.encode (PDeviceSentMessage
                                 (mkDeviceSentMessage (Sim.jidString to) Sim.hello))) in
  let fp := firstPass W "id" msg dsm [Sim.alice1; Sim.bob0] (mkFanout [] false []) c in
  let r := encryptMessageForDevices W [Sim.alice1; Sim.bob0] "id" msg dsm c in
  retryDevices fp.1 = [Sim.bob0]
  /\ fetchPreKeys W (trace fp.2) (retryDevices fp.1) = inl "prekey request timed out"
  /\ r.1 = (participantNodes fp.1, includeIdentity fp.1)
  /\ sendDM W to "id" Sim.hello c0
     = finishSend W (dmNode to "id" (participantNodes fp.1)) (includeIdentity fp.1) r.2
  /\ (sendDM W to "id" Sim.hello c0).1 = Ok tt.
Proof.
  intros W c0 to c msg dsm fp r.
  assert (retryDevices fp.1 <> []) as Hne by (vm_compute; discriminate).
  assert (fetchPreKeys W (trace fp.2) (retryDevices fp.1)
          = inl "prekey request timed out") as Hf by reflexivity.
  destruct (fetch_failure_keeps_first_pass W [Sim.alice1; Sim.bob0] "id" msg dsm c
              "prekey request timed out" Hne Hf) as (H1 & _ & _ & H4 & _).
  assert (marshalMessage W to Sim.hello = Ok (msg, dsm)) as Hm
    by (vm_compute; reflexivity).
  assert (GetUSyncDevices W [to; Session_ID c0] false c0
          = (Ok [Sim.alice1; Sim.bob0], c)) as Hu by (vm_compute; reflexivity).
  destruct (H4 to Sim.hello c0 Hm Hu) as [Hs _].
  split; [vm_compute; reflexivity|]. split; [exact Hf|]. split; [exact H1|].
  split; [exact Hs|]. vm_compute. reflexivity.
Defined.

(** The run of the witness: alice's other device gets the self-copy under
    its stored session, bob's device is deferred and dropped, and the node
    goes out with one participant. *)
Example fetch_failure_run :
  let W := Sim.world Sim.always None (Some Sim.directory_ab)
             (inl "prekey request timed out") true in
  let c0 := Sim.client [(Sim.signalAddress Sim.alice1, [0])] in
  let r := sendDM W (NewJID "bob" Sim.server) "id" Sim.hello c0 in
  r.1 = Ok tt
  /\ map (fun ev => match ev with
                    | EvSendNode n => map envelope_to (participants_of n)
                    | _ => []
                    end) (List.filter is_dispatch (trace r.2))
     = [[Some Sim.alice1]]
  /\ count_events is_fetch (trace r.2) = 1%nat
  /\ count_events is_bundle (trace r.2) = 0%nat.
Proof. vm_compute. repeat split. Qed.

(** ** C6: what the [pkmsg] mark records *)

(** C6 fails as worded: a stored session for which the library still
    answers with a prekey-type ciphertext gives a [pkmsg] envelope in the
    first pass, where no bundle is processed. *)
Lemma pkmsg_without_bundle_counterexample :
  ~ pkmsg_iff_bundle_processed
      (Sim.world Sim.always None None (inr []) true)
      [Sim.bob0] "id" [1; 2] None
      (Sim.client [(Sim.signalAddress Sim.bob0, [1])]).
Proof.
  unfold pkmsg_iff_bundle_processed. intros H.
  set (r := encryptMessageForDevices _ _ _ _ _ _) in H.
  assert (exists n, r.1.1 = [n] /\ envelope_to n = Some Sim.bob0
                    /\ envelope_pkmsg n = true) as (n & Hn & Hto & Hpk).
  { eexists. vm_compute. repeat split. }
  assert (new_events (Sim.client [(Sim.signalAddress Sim.bob0, [1])]) r.2
          = [EvEncrypt Sim.bob0 [1; 2; 1] (Some (mkCiphertext 3 [3; 1; 2; 1]))])
    as Hev by (vm_compute; reflexivity).
  destruct (proj1 (H n Sim.bob0 ltac:(rewrite Hn; by left) Hto) Hpk) as [b Hb].
  rewrite Hev in Hb. destruct Hb as [Hb|[]]. discriminate Hb.
Qed.

(** C6, amended. Every envelope of the fan-out wraps a ciphertext that
    [cipher.Encrypt] returned for one of the devices during the fan-out,
    and it is marked [pkmsg] exactly when that ciphertext is of the prekey
    type; the flag of the fan-out is true exactly when some envelope is so
    marked; and a fan-out that fetches no keys processes no bundle, so its
    [pkmsg] envelopes come from stored sessions. *)
Theorem pkmsg_iff_prekey_ciphertext (W : World) (allDevices : list FullJID)
  (id : string) (msgPlaintext : bytes) (dsmPlaintext : option bytes)
  (c : Client) :
  let r := encryptMessageForDevices W allDevices id msgPlaintext dsmPlaintext c in
  let evs := new_events c r.2 in
  (forall n, In n r.1.1 ->
     exists jid padded ct,
       In jid allDevices
       /\ In (EvEncrypt jid padded (Some ct)) evs
       /\ n = envelopeNode jid
                (if ctType ct =? PREKEY_TYPE then "pkmsg" else "msg")
                (ctSerialize ct)
       /\ (envelope_pkmsg n = true <-> ctType ct = PREKEY_TYPE))
  /\ (r.1.2 = true <-> exists n, In n r.1.1 /\ envelope_pkmsg n = true)
  /\ (count_events is_fetch evs = 0%nat ->
      forall jid, count_events (is_bundle_for jid) evs = 0%nat).
Proof.
  intros r evs. subst r evs.
  destruct (encryptMessageForDevices_run W allDevices id msgPlaintext dsmPlaintext c)
    as (evs & added & Hrun & _ & _ & _ & _ & Hres & Henv & _ & Hnofetch).
  rewrite (run_from_new_events _ _ _ Hrun), Hres. cbn [fst snd].
  split; [|split].
  - intros n Hn. rewrite List.Forall_forall in Henv.
    destruct (Henv n Hn) as (jid & Hjid & padded & ct & Hin & Hnode & Hpk).
    exists jid, padded, ct. do 3 (split; [done|]).
    rewrite Hpk. apply Z.eqb_eq.
  - rewrite existsb_exists. reflexivity.
  - intros H0 jid. apply first_pass_no_bundle. by apply Hnofetch.
Qed.

Lemma pkmsg_iff_prekey_ciphertext_witness :
  let W := Sim.world Sim.always None None (inr []) true in
  let c := Sim.client [(Sim.signalAddress Sim.bob0, [1])] in
  let r := encryptMessageForDevices W [Sim.bob0] "id" [1; 2] None c in
  let n := envelopeNode Sim.bob0 "pkmsg" [3; 1; 2; 1] in
  In n r.1.1
  /\ exists jid padded ct,
       In jid [Sim.bob0]
       /\ In (EvEncrypt jid padded (Some ct)) (new_events c r.2)
       /\ n = envelopeNode jid
                (if ctType ct =? PREKEY_TYPE then "pkmsg" else "msg")
                (ctSerialize ct)
       /\ (envelope_pkmsg n = true <-> ctType ct = PREKEY_TYPE).
Proof.
  intros W c r n.
  assert (In n r.1.1) as Hn by (vm_compute; left; reflexivity).
  split; [exact Hn|].
  exact (proj1 (pkmsg_iff_prekey_ciphertext W [Sim.bob0] "id" [1; 2] None c) n Hn).
Defined.

(** ** The queries before the fan-out *)

Section Prepare.

Variable W : World.

Lemma groupChild_run (jid : FullJID) (child : Node) (g : GroupInfo) (c : Client) :
  exists evs,
    run_from c (groupChild W jid child (g, c)).2 evs
    /\ Forall (fun ev => is_log ev = true) evs
    /\ sessions (groupChild W jid child (g, c)).2 = sessions c.
Proof.
  unfold groupChild.
  repeat case_match; simplify_eq; cbn [fst snd];
    first [ by (exists []; split; [apply run_from_refl|split; [constructor|done]])
          | by (eexists [_]; split; [apply run_from_log|split; [by repeat constructor|done]])
          | by (eexists [_; _]; split;
                [unfold run_from; simpl; by rewrite <- app_assoc
                |split; [by repeat constructor|done]]) ].
Qed.

Lemma log_is_query (evs : list Event) :
  Forall (fun ev => is_log ev = true) evs ->
  Forall (fun ev => is_query_event ev = true) evs.
Proof. intros H. eapply Forall_impl; [exact H|]. by intros []. Qed.

Lemma query_is_prepare (evs : list Event) :
  Forall (fun ev => is_query_event ev = true) evs ->
  Forall (fun ev => is_prepare_event ev = true) evs.
Proof. intros H. eapply Forall_impl; [exact H|]. by intros []. Qed.

Lemma groupChildren_run (jid : FullJID) (children : list Node) (g : GroupInfo)
  (c : Client) :
  exists evs,
    run_from c
      (fold_left (fun gc child => groupChild W jid child gc) children (g, c)).2 evs
    /\ Forall (fun ev => is_log ev = true) evs
    /\ sessions (fold_left (fun gc child => groupChild W jid child gc)
                   children (g, c)).2 = sessions c.
Proof.
  revert g c. induction children as [|child rest IH]; intros g c; cbn [fold_left].
  { exists []. split; [apply run_from_refl|]. split; [constructor|done]. }
  destruct (groupChild_run jid child g c) as (e1 & Hrun1 & Hcls1 & Hs1).
  destruct (groupChild W jid child (g, c)) as [g1 c1]. cbn [fst snd] in *.
  destruct (IH g1 c1) as (e2 & Hrun2 & Hcls2 & Hs2).
  exists (e1 ++ e2). split; [by eapply run_from_trans|].
  split; [by apply Forall_app|]. by rewrite Hs2.
Qed.

(** The group query adds the query and log lines, and leaves the session
    store as it is. *)
Lemma GetGroupInfo_run (jid : FullJID) (c : Client) :
  exists evs,
    run_from c (GetGroupInfo W jid c).2 evs
    /\ Forall (fun ev => is_query_event ev = true) evs
    /\ sessions (GetGroupInfo W jid c).2 = sessions c
    /\ exists q rest, evs = EvSendIQ q :: rest.
Proof.
  unfold GetGroupInfo, do_sendIQ.
  set (q := mkInfoQuery _ _ _ _).
  destruct (sendIQ W (trace c) q) as [e|res].
  { exists [EvSendIQ q]. split; [apply run_from_emit|].
    split; [by repeat constructor|]. split; [done|]. by exists q, []. }
  destruct (GetOptionalChildByTag res "error") as [errorNode [|]].
  { exists [EvSendIQ q]. split; [apply run_from_emit|].
    split; [by repeat constructor|]. split; [done|]. by exists q, []. }
  destruct (GetOptionalChildByTag res "group") as [groupNode [|]]; simpl.
  2:{ exists [EvSendIQ q]. split; [apply run_from_emit|].
      split; [by repeat constructor|]. split; [done|]. by exists q, []. }
  repeat match goal with
         | |- context [let '(_, _) := ?x in _] =>
             lazymatch x with
             | fold_left _ _ _ => fail
             | _ => destruct x
             end
         end.
  match goal with
  | |- context [fold_left _ ?l (?g, ?c1)] =>
      destruct (groupChildren_run jid l g c1) as (e2 & Hrun2 & Hcls2 & Hs2);
      destruct (fold_left (fun gc child => groupChild W jid child gc) l (g, c1))
        as [g' c2]
  end.
  cbn [fst snd] in *.
  exists ([EvSendIQ q] ++ e2).
  split; [eapply run_from_trans; [apply run_from_emit|exact Hrun2]|].
  split; [apply Forall_app; split; [by repeat constructor|by apply log_is_query]|].
  split; [by rewrite Hs2|]. by exists q, e2.
Qed.

(** The directory query is one request; nothing else happens. *)
Lemma GetUSyncDevices_client (jids : list FullJID) (ignorePrimary : bool)
  (c : Client) :
  (GetUSyncDevices W jids ignorePrimary c).2
  = emit (EvSendIQ (usyncQuery W (generateRequestID W (trace c)) jids)) c.
Proof.
  unfold GetUSyncDevices, do_sendIQ.
  repeat case_match; simplify_eq; done.
Qed.

Lemma GetUSyncDevices_run (jids : list FullJID) (ignorePrimary : bool) (c : Client) :
  run_from c (GetUSyncDevices W jids ignorePrimary c).2
    [EvSendIQ (usyncQuery W (generateRequestID W (trace c)) jids)]
  /\ sessions (GetUSyncDevices W jids ignorePrimary c).2 = sessions c.
Proof. rewrite GetUSyncDevices_client. split; [apply run_from_emit|done]. Qed.

(** [sendGroup] before the fan-out: queries, the group cipher and log
    lines; no node is dispatched, no device is encrypted for, no keys are
    fetched. *)
Lemma sendGroupPrepare_run (to : FullJID) (id : string) (message : Message)
  (c : Client) :
  exists evs,
    run_from c (sendGroupPrepare W to id message c).2 evs
    /\ Forall (fun ev => is_prepare_event ev = true) evs
    /\ sessions (sendGroupPrepare W to id message c).2 = sessions c.
Proof.
  unfold sendGroupPrepare.
  destruct (GetGroupInfo_run to c) as (e1 & Hrun1 & Hcls1 & Hs1 & _).
  apply query_is_prepare in Hcls1.
  destruct (GetGroupInfo W to c) as [[groupInfo|e] c1]; cbn [fst snd] in *.
  2:{ by exists e1. }
  destruct (marshalMessage W to message) as [[plaintext dsm]|e]; [|by exists e1].
  set (skn := mkSenderKeyName _ _).
  destruct (groupBuilder_Create W (trace c1) skn) as [e|skdm].
  { exists (e1 ++ [EvGroupCreate skn]). cbn [fst snd].
    split; [eapply run_from_trans; [exact Hrun1|apply run_from_emit]|].
    split; [apply Forall_app; split; [done|by repeat constructor]|done]. }
  destruct (proto_Marshal W _) as [e|skdPlaintext].
  { exists (e1 ++ [EvGroupCreate skn]). cbn [fst snd].
    split; [eapply run_from_trans; [exact Hrun1|apply run_from_emit]|].
    split; [apply Forall_app; split; [done|by repeat constructor]|done]. }
  set (padded := padMessage W _ plaintext).
  destruct (groupCipher_Encrypt W _ skn padded) as [e|ciphertext].
  { exists (e1 ++ [EvGroupCreate skn; EvGroupEncrypt skn padded]). cbn [fst snd].
    split.
    { eapply run_from_trans; [exact Hrun1|].
      unfold run_from. simpl. by rewrite <- app_assoc. }
    split; [apply Forall_app; split; [done|by repeat constructor]|done]. }
  match goal with
  | |- context [GetUSyncDevices W ?jids false ?c3] =>
      destruct (GetUSyncDevices_run jids false c3) as [Hrun4 Hs4];
      set (q := usyncQuery W (generateRequestID W (trace c3)) jids) in *;
      destruct (GetUSyncDevices W jids false c3) as [[allDevices|e] c4]
  end; cbn [fst snd] in *.
  all: exists (e1 ++ [EvGroupCreate skn; EvGroupEncrypt skn padded] ++ [EvSendIQ q]).
  all: split;
    [eapply run_from_trans; [exact Hrun1|];
     eapply run_from_trans; [|exact Hrun4];
     unfold run_from; simpl; by rewrite <- app_assoc|].
  all: split; [apply Forall_app; split; [done|by repeat constructor]|].
  all: by rewrite Hs4.
Qed.

End Prepare.

(** ** The node a send dispatches *)

Section Dispatch.

Variable W : World.

Lemma fanout_no_dispatch (evs : list Event) :
  Forall (fun ev => is_fanout_event ev = true) evs ->
  Forall (fun ev => is_dispatch ev = false) evs.
Proof. intros H. eapply Forall_impl; [exact H|]. by intros []. Qed.

Lemma prepare_no_dispatch (evs : list Event) :
  Forall (fun ev => is_prepare_event ev = true) evs ->
  Forall (fun ev => is_dispatch ev = false) evs.
Proof. intros H. eapply Forall_impl; [exact H|]. by intros []. Qed.

Lemma no_dispatch_In (evs : list Event) (n : Node) :
  Forall (fun ev => is_dispatch ev = false) evs -> ~ In (EvSendNode n) evs.
Proof. intros H Hin. rewrite List.Forall_forall in H. by apply H in Hin. Qed.

(** After a run without dispatch, the only node [finishSend] can add to
    the trace is the node it was given, with the identity child when the
    flag is set. *)
Lemma finishSend_dispatched (c c2 : Client) (pre : list Event) (node : Node)
  (incl : bool) (n : Node) :
  run_from c c2 pre ->
  Forall (fun ev => is_dispatch ev = false) pre ->
  In (EvSendNode n) (new_events c (finishSend W node incl c2).2) ->
  if incl then appendDeviceIdentityNode W node c2 = Ok n else n = node.
Proof.
  intros Hrun Hpre.
  destruct (finishSend_run W node incl c2)
    as [_ [(node' & Hrun' & Hnode & _)|(-> & Hc & _)]].
  - rewrite (run_from_new_events _ _ _ (run_from_trans _ _ _ _ _ Hrun Hrun')).
    intros [Hin|[[= <-]|[]]]%in_app_or; [by apply no_dispatch_In in Hin|].
    destruct incl; done.
  - rewrite Hc, (run_from_new_events _ _ _ Hrun).
    intros Hin. by apply no_dispatch_In in Hin.
Qed.

(** A node dispatched by [sendDM] is the node of lines 149-160 around the
    envelopes of the fan-out, with the identity child when the fan-out set
    its flag. *)
Lemma sendDM_dispatched (to : FullJID) (id : string) (message : Message)
  (c : Client) (n : Node) :
  In (EvSendNode n) (new_events c (sendDM W to id message c).2) ->
  exists pt dsm devs c1 nodes incl c2,
    marshalMessage W to message = Ok (pt, dsm)
    /\ GetUSyncDevices W [to; Session_ID c] false c = (Ok devs, c1)
    /\ encryptMessageForDevices W devs id pt dsm c1 = ((nodes, incl), c2)
    /\ (if incl then appendDeviceIdentityNode W (dmNode to id nodes) c2 = Ok n
        else n = dmNode to id nodes).
Proof.
  unfold sendDM.
  destruct (marshalMessage W to message) as [[pt dsm]|e]; cbn [fst snd].
  2:{ rewrite (run_from_new_events _ _ _ (run_from_refl c)). intros []. }
  destruct (GetUSyncDevices_run W [to; Session_ID c] false c) as [Hrun1 _].
  destruct (GetUSyncDevices W [to; Session_ID c] false c) as [[devs|e] c1];
    cbn [fst snd] in *.
  2:{ rewrite (run_from_new_events _ _ _ Hrun1). intros [[=]|[]]. }
  destruct (encryptMessageForDevices_run W devs id pt dsm c1)
    as (evs & added & Hrun2 & Hcls2 & _).
  destruct (encryptMessageForDevices W devs id pt dsm c1) as [[nodes incl] c2]
    eqn:Hfan; cbn [fst snd] in *.
  intros Hin. exists pt, dsm, devs, c1, nodes, incl, c2. do 3 (split; [done|]).
  eapply finishSend_dispatched; [exact (run_from_trans _ _ _ _ _ Hrun1 Hrun2)| |exact Hin].
  apply Forall_app. split; [by repeat constructor|by apply fanout_no_dispatch].
Qed.

(** The same for [sendGroup], with the node of lines 111-123. *)
Lemma sendGroup_dispatched (to : FullJID) (id : string) (message : Message)
  (c : Client) (n : Node) :
  In (EvSendNode n) (new_events c (sendGroup W to id message c).2) ->
  exists prep c1 nodes incl c2,
    sendGroupPrepare W to id message c = (Ok prep, c1)
    /\ encryptMessageForDevices W (gpDevices prep) id (gpSkdPlaintext prep) None c1
       = ((nodes, incl), c2)
    /\ let node :=
         groupNode to id
           (participantListHashV2
              (map (fun p => JID_String W (pFullJID p)) (gParticipants (gpInfo prep))))
           nodes (gpCiphertext prep) in
       if incl then appendDeviceIdentityNode W node c2 = Ok n else n = node.
Proof.
  unfold sendGroup.
  destruct (sendGroupPrepare_run W to id message c) as (e1 & Hrun1 & Hcls1 & _).
  destruct (sendGroupPrepare W to id message c) as [[prep|e] c1]; cbn [fst snd] in *.
  2:{ rewrite (run_from_new_events _ _ _ Hrun1). intros Hin.
      by apply no_dispatch_In in Hin; [|apply prepare_no_dispatch]. }
  destruct (encryptMessageForDevices_run W (gpDevices prep) id (gpSkdPlaintext prep)
              None c1) as (evs & added & Hrun2 & Hcls2 & _).
  destruct (encryptMessageForDevices W (gpDevices prep) id (gpSkdPlaintext prep)
              None c1) as [[nodes incl] c2] eqn:Hfan; cbn [fst snd] in *.
  intros Hin. exists prep, c1, nodes, incl, c2. do 2 (split; [done|]).
  eapply finishSend_dispatched; [exact (run_from_trans _ _ _ _ _ Hrun1 Hrun2)| |exact Hin].
  apply Forall_app. split; [by apply prepare_no_dispatch|by apply fanout_no_dispatch].
Qed.

End Dispatch.

(** ** Children and attributes of the assembled nodes *)

Section Nodes.

Lemma count_children_identity_dmNode to id nodes :
  count_children "device-identity" (dmNode to id nodes) = 0%nat.
Proof. reflexivity. Qed.

Lemma count_children_identity_groupNode to id phash nodes ciphertext :
  count_children "device-identity" (groupNode to id phash nodes ciphertext) = 0%nat.
Proof. reflexivity. Qed.

Lemma count_skmsg_dmNode to id nodes : count_skmsg (dmNode to id nodes) = 0%nat.
Proof. reflexivity. Qed.

Lemma count_skmsg_groupNode to id phash nodes ciphertext :
  count_skmsg (groupNode to id phash nodes ciphertext) = 1%nat.
Proof.
  unfold count_skmsg, groupNode, is_skmsg_entry, attr_is. simpl.
  rewrite lookup_insert_ne by done. rewrite lookup_insert_eq. done.
Qed.

Lemma phash_dmNode to id nodes : Attrs (dmNode to id nodes) !! "phash" = None.
Proof.
  unfold dmNode. simpl. rewrite !lookup_insert_ne by done. apply lookup_empty.
Qed.

Lemma phash_groupNode to id phash nodes ciphertext :
  Attrs (groupNode to id phash nodes ciphertext) !! "phash" = Some (AttrString phash).
Proof.
  unfold groupNode. simpl. rewrite !lookup_insert_ne by done. apply lookup_insert_eq.
Qed.

Lemma find_app_miss {A} (p : A -> bool) (l : list A) (x : A) :
  p x = false -> find p (l ++ [x]) = find p l.
Proof.
  intros Hx. induction l as [|y l IH]; simpl; [by rewrite Hx|].
  by destruct (p y).
Qed.

(** The identity child goes behind the children; tag and attributes stay. *)
Lemma appendDeviceIdentityNode_counts (W : World) (node n : Node) (c : Client) :
  appendDeviceIdentityNode W node c = Ok n ->
  Attrs n = Attrs node
  /\ count_children "device-identity" n
     = S (count_children "device-identity" node)
  /\ count_skmsg n = count_skmsg node
  /\ participants_of n = participants_of node.
Proof.
  intros (d & _ & _ & Hattrs & Hch)%appendDeviceIdentityNode_children.
  split; [done|].
  unfold count_children, count_skmsg, participants_of, GetChildByTag,
    GetOptionalChildByTag.
  rewrite Hch, !List.filter_app, !length_app. simpl.
  split; [lia|]. split; [lia|].
  by rewrite find_app_miss.
Qed.

End Nodes.

(** ** C5: the identity child follows the flag of the fan-out *)

Section IdentityChild.

Variable W : World.

Lemma dispatched_app (e1 e2 : list Event) :
  dispatched (e1 ++ e2) = dispatched e1 ++ dispatched e2.
Proof. unfold dispatched. apply omap_app. Qed.

Lemma dispatched_none (evs : list Event) :
  Forall (fun ev => is_dispatch ev = false) evs -> dispatched evs = [].
Proof.
  unfold dispatched. induction 1 as [|ev evs Hev _ IH]; [done|].
  destruct ev; try discriminate Hev; exact IH.
Qed.

(** After a run without dispatch, [finishSend] dispatches exactly the node
    it was given when the flag is clear, exactly that node with the
    identity child when the flag is set and the identity marshals, and
    nothing, returning the error, when the identity does not marshal. *)
Lemma finishSend_dispatches (c c2 : Client) (pre : list Event) (node : Node)
  (incl : bool) :
  run_from c c2 pre ->
  Forall (fun ev => is_dispatch ev = false) pre ->
  match (if incl then appendDeviceIdentityNode W node c2 else Ok node) with
  | Ok node' => dispatched (new_events c (finishSend W node incl c2).2) = [node']
  | Err e =>
      dispatched (new_events c (finishSend W node incl c2).2) = []
      /\ finishSend W node incl c2 = (Err e, c2)
  end.
Proof.
  intros Hrun Hpre. unfold finishSend.
  destruct (if incl then appendDeviceIdentityNode W node c2 else Ok node)
    as [node'|e].
  - assert (run_from c2 (do_sendNode W node' c2).2 [EvSendNode node']) as Hrun'
      by apply run_from_emit.
    assert (new_events c
              (match do_sendNode W node' c2 with
               | (Some e, c1) =>
                   (Err (ErrorfW "failed to send message node: %w" [] (ErrExt e)), c1)
               | (None, c1) => (Ok tt, c1)
               end).2 = pre ++ [EvSendNode node']) as ->.
    { unfold do_sendNode in *. cbn [snd] in Hrun'.
      destruct (sendNode W (trace c2) node'); cbn [snd];
        apply run_from_new_events; by eapply run_from_trans. }
    by rewrite dispatched_app, (dispatched_none pre Hpre).
  - cbn [snd]. rewrite (run_from_new_events _ _ _ Hrun).
    split; [by apply dispatched_none|done].
Qed.

Lemma appendDeviceIdentityNode_fails (node : Node) (c : Client) :
  match proto_Marshal W (PAccount (Session_Account c)) with
  | inl e =>
      appendDeviceIdentityNode W node c
      = Err (ErrorfW "failed to marshal device identity: %w" [] (ErrExt e))
  | inr d => exists node', appendDeviceIdentityNode W node c = Ok node'
  end.
Proof.
  unfold appendDeviceIdentityNode.
  destruct (proto_Marshal W _) as [e|d]; [done|by eexists].
Qed.

(** What a send dispatches once it has reached its fan-out, in terms of
    the node it assembled around the envelopes and of the fan-out's flag. *)
Lemma send_tail_identity (c c2 : Client) (pre : list Event) (node : Node)
  (incl : bool) :
  run_from c c2 pre ->
  Forall (fun ev => is_dispatch ev = false) pre ->
  count_children "device-identity" node = 0%nat ->
  let evs := new_events c (finishSend W node incl c2).2 in
  (forall n, In (EvSendNode n) evs ->
             count_children "device-identity" n = if incl then 1%nat else 0%nat)
  /\ (incl = false
      \/ (exists d, proto_Marshal W (PAccount (Session_Account c)) = inr d) ->
      exists n,
        dispatched evs = [n]
        /\ Tag n = Tag node /\ Attrs n = Attrs node
        /\ participants_of n = participants_of node
        /\ count_children "device-identity" n = if incl then 1%nat else 0%nat)
  /\ (incl = true ->
      forall e,
        proto_Marshal W (PAccount (Session_Account c)) = inl e ->
        dispatched evs = []
        /\ finishSend W node incl c2
           = (Err (ErrorfW "failed to marshal device identity: %w" [] (ErrExt e)), c2)).
Proof.
  intros Hrun Hpre Hzero. cbn zeta.
  assert (Session_Account c2 = Session_Account c) as Hacc by apply Hrun.
  pose proof (finishSend_dispatches c c2 pre node incl Hrun Hpre) as Hd.
  pose proof (appendDeviceIdentityNode_fails node c2) as Ha. rewrite Hacc in Ha.
  split; [|split].
  - intros n Hin.
    pose proof (finishSend_dispatched W c c2 pre node incl n Hrun Hpre Hin) as Hn.
    destruct incl.
    + apply appendDeviceIdentityNode_counts in Hn as (_ & -> & _). by rewrite Hzero.
    + by rewrite Hn.
  - intros Hok. destruct incl.
    + destruct Hok as [|[d Hm]]; [discriminate|]. rewrite Hm in Ha.
      destruct Ha as [node' Ha]. rewrite Ha in Hd. exists node'. split; [done|].
      pose proof (appendDeviceIdentityNode_children W _ _ _ Ha) as (d' & _ & Ht & _).
      apply appendDeviceIdentityNode_counts in Ha as (-> & -> & _ & ->).
      by rewrite Hzero.
    + exists node. by rewrite Hzero.
  - intros -> e Hm. rewrite Hm in Ha. by rewrite Ha in Hd.
Qed.

End IdentityChild.

(** C5. On both paths, once the send has reached its fan-out, what it
    dispatches follows the flag the fan-out returned.  With the flag clear
    it dispatches exactly one node, the assembled node, which has no
    [device-identity] child.  With the flag set and an identity that
    marshals it dispatches exactly one node, the assembled node with
    exactly one [device-identity] child.  With the flag set and an
    identity that does not marshal it dispatches nothing and returns that
    error.  In every case a dispatched node has one such child when the
    flag is set and none when it is clear. *)
Theorem identity_child_follows_flag (W : World) (to : FullJID) (id : string)
  (message : Message) (c : Client) :
  (forall pt dsm devs c1 nodes incl c2,
     marshalMessage W to message = Ok (pt, dsm) ->
     GetUSyncDevices W [to; Session_ID c] false c = (Ok devs, c1) ->
     encryptMessageForDevices W devs id pt dsm c1 = ((nodes, incl), c2) ->
     let evs := new_events c (sendDM W to id message c).2 in
     (forall n, In (EvSendNode n) evs ->
                count_children "device-identity" n = if incl then 1%nat else 0%nat)
     /\ (incl = false
         \/ (exists d, proto_Marshal W (PAccount (Session_Account c)) = inr d) ->
         exists n,
           dispatched evs = [n]
           /\ Tag n = "message" /\ participants_of n = nodes
           /\ count_children "device-identity" n = if incl then 1%nat else 0%nat)
     /\ (incl = true ->
         forall e,
           proto_Marshal W (PAccount (Session_Account c)) = inl e ->
           dispatched evs = []
           /\ (sendDM W to id message c).1
              = Err (ErrorfW "failed to marshal device identity: %w" [] (ErrExt e))))
  /\ (forall prep c1 nodes incl c2,
        sendGroupPrepare W to id message c = (Ok prep, c1) ->
        encryptMessageForDevices W (gpDevices prep) id (gpSkdPlaintext prep) None c1
        = ((nodes, incl), c2) ->
        let evs := new_events c (sendGroup W to id message c).2 in
        (forall n, In (EvSendNode n) evs ->
                   count_children "device-identity" n
                   = if incl then 1%nat else 0%nat)
        /\ (incl = false
            \/ (exists d, proto_Marshal W (PAccount (Session_Account c)) = inr d) ->
            exists n,
              dispatched evs = [n]
              /\ Tag n = "message" /\ participants_of n = nodes
              /\ count_children "device-identity" n
                 = if incl then 1%nat else 0%nat)
        /\ (incl = true ->
            forall e,
              proto_Marshal W (PAccount (Session_Account c)) = inl e ->
              dispatched evs = []
              /\ (sendGroup W to id message c).1
                 = Err (ErrorfW "failed to marshal device identity: %w" []
                          (ErrExt e)))).
Proof.
  split.
  - intros pt dsm devs c1 nodes incl c2 Hm Hu Hf. cbn zeta.
    destruct (GetUSyncDevices_run W [to; Session_ID c] false c) as [Hrun1 _].
    rewrite Hu in Hrun1. cbn [snd] in Hrun1.
    destruct (encryptMessageForDevices_run W devs id pt dsm c1)
      as (evs & added & Hrun2 & Hcls2 & _).
    rewrite Hf in Hrun2. cbn [snd] in Hrun2.
    assert (sendDM W to id message c = finishSend W (dmNode to id nodes) incl c2)
      as ->.
    { unfold sendDM. by rewrite Hm, Hu, Hf. }
    destruct (send_tail_identity W c c2 _ (dmNode to id nodes) incl
                (run_from_trans _ _ _ _ _ Hrun1 Hrun2)) as (H1 & H2 & H3).
    { apply Forall_app. split; [by repeat constructor|by apply fanout_no_dispatch]. }
    { apply count_children_identity_dmNode. }
    split; [exact H1|]. split.
    + intros Hok. destruct (H2 Hok) as (n & Hd & Ht & _ & Hp & Hc).
      exists n. by rewrite Ht, Hp.
    + intros Hi e He. destruct (H3 Hi e He) as [Hd Hr].
      split; [exact Hd|by rewrite Hr].
  - intros prep c1 nodes incl c2 Hp Hf. cbn zeta.
    destruct (sendGroupPrepare_run W to id message c) as (e1 & Hrun1 & Hcls1 & _).
    rewrite Hp in Hrun1. cbn [snd] in Hrun1.
    destruct (encryptMessageForDevices_run W (gpDevices prep) id
                (gpSkdPlaintext prep) None c1)
      as (evs & added & Hrun2 & Hcls2 & _).
    rewrite Hf in Hrun2. cbn [snd] in Hrun2.
    set (node := groupNode to id
                   (participantListHashV2
                      (map (fun p => JID_String W (pFullJID p))
                         (gParticipants (gpInfo prep))))
                   nodes (gpCiphertext prep)).
    assert (sendGroup W to id message c = finishSend W node incl c2) as ->.
    { unfold sendGroup. by rewrite Hp, Hf. }
    destruct (send_tail_identity W c c2 _ node incl
                (run_from_trans _ _ _ _ _ Hrun1 Hrun2)) as (H1 & H2 & H3).
    { apply Forall_app.
      split; [by apply prepare_no_dispatch|by apply fanout_no_dispatch]. }
    { apply count_children_identity_groupNode. }
    split; [exact H1|]. split.
    + intros Hok. destruct (H2 Hok) as (n & Hd & Ht & _ & Hpn & Hc).
      exists n. by rewrite Ht, Hpn.
    + intros Hi e He. destruct (H3 Hi e He) as [Hd Hr].
      split; [exact Hd|by rewrite Hr].
Qed.

(** ** C9: the group node and the direct node *)

(** C9. A node dispatched by a group send has a [phash] attribute and
    exactly one [enc] child of type [skmsg]; a node dispatched by a direct
    send has no [phash] attribute and no such child. *)
Theorem group_node_phash_and_skmsg (W : World) (to : FullJID) (id : string)
  (message : Message) (c : Client) (n : Node) :
  (In (EvSendNode n) (new_events c (sendGroup W to id message c).2) ->
   (exists phash, Attrs n !! "phash" = Some (AttrString phash))
   /\ count_skmsg n = 1%nat)
  /\ (In (EvSendNode n) (new_events c (sendDM W to id message c).2) ->
      Attrs n !! "phash" = None /\ count_skmsg n = 0%nat).
Proof.
  split.
  - intros Hin.
    destruct (sendGroup_dispatched W to id message c n Hin)
      as (prep & c1 & nodes & incl & c2 & _ & _ & Hn).
    cbn zeta in Hn. destruct incl.
    + apply appendDeviceIdentityNode_counts in Hn as (-> & _ & -> & _).
      rewrite phash_groupNode, count_skmsg_groupNode. eauto.
    + rewrite Hn, phash_groupNode, count_skmsg_groupNode. eauto.
  - intros Hin.
    destruct (sendDM_dispatched W to id message c n Hin)
      as (pt & dsm & devs & c1 & nodes & incl & c2 & _ & _ & _ & Hn).
    destruct incl.
    + apply appendDeviceIdentityNode_counts in Hn as (-> & _ & -> & _).
      by rewrite phash_dmNode, count_skmsg_dmNode.
    + by rewrite Hn, phash_dmNode, count_skmsg_dmNode.
Qed.

Lemma dispatched_In (evs : list Event) (n : Node) :
  In n (dispatched evs) <-> In (EvSendNode n) evs.
Proof.
  unfold dispatched. rewrite <- !list_elem_of_In, list_elem_of_omap. split.
  - intros (ev & Hin & Hev). destruct ev; try discriminate. by injection Hev as ->.
  - intros Hin. by exists (EvSendNode n).
Qed.

Lemma first_dispatched_In (evs : list Event) :
  dispatched evs <> [] -> In (EvSendNode (hd zeroNode (dispatched evs))) evs.
Proof.
  intros Hne. apply dispatched_In. destruct (dispatched evs); [done|by left].
Qed.

(** The first node dispatched in a computed trace. *)
Ltac first_dispatched :=
  apply first_dispatched_In; vm_compute; discriminate.

Lemma identity_child_follows_flag_witness :
  let W := Sim.world Sim.always (Some ["alice"; "bob"]) (Some Sim.directory_ab)
             (inr [(Sim.bob0, mkPreKeyResp (Some [9]) None)]) true in
  let fresh := Sim.client [(Sim.signalAddress Sim.alice1, [0])] in
  let known := Sim.client [(Sim.signalAddress Sim.alice1, [0]);
                           (Sim.signalAddress Sim.bob0, [0])] in
  let bob := NewJID "bob" Sim.server in
  let group := NewJID "1234" "g.us" in
  (exists n,
     dispatched (new_events fresh (sendDM W bob "id" Sim.hello fresh).2) = [n]
     /\ count_children "device-identity" n = 1%nat)
  /\ (exists n,
        dispatched (new_events known (sendDM W bob "id" Sim.hello known).2) = [n]
        /\ count_children "device-identity" n = 0%nat)
  /\ (exists n,
        dispatched (new_events fresh (sendGroup W group "id" Sim.hello fresh).2) = [n]
        /\ count_children "device-identity" n = 1%nat)
  /\ (exists n,
        dispatched (new_events known (sendGroup W group "id" Sim.hello known).2) = [n]
        /\ count_children "device-identity" n = 0%nat).
Proof.
  intros W fresh known bob group.
  assert (forall c, Session_Account c = Sim.account ->
                    exists d, proto_Marshal W (PAccount (Session_Account c)) = inr d)
    as Hacc by (intros c ->; by eexists).
  assert (forall c flag,
            (exists pt dsm devs c1 nodes c2,
               marshalMessage W bob Sim.hello = Ok (pt, dsm)
               /\ GetUSyncDevices W [bob; Session_ID c] false c = (Ok devs, c1)
               /\ encryptMessageForDevices W devs "id" pt dsm c1
                  = ((nodes, flag), c2)) ->
            Session_Account c = Sim.account ->
            exists n,
              dispatched (new_events c (sendDM W bob "id" Sim.hello c).2) = [n]
              /\ count_children "device-identity" n
                 = if flag then 1%nat else 0%nat) as Hdm.
  { intros c flag (pt & dsm & devs & c1 & nodes & c2 & Hm & Hu & Hf) Hc.
    destruct (proj1 (identity_child_follows_flag W bob "id" Sim.hello c)
                pt dsm devs c1 nodes flag c2 Hm Hu Hf) as (_ & H & _).
    destruct (H (or_intror (Hacc c Hc))) as (n & Hd & _ & _ & Hn). by exists n. }
  assert (forall c flag,
            (exists prep c1 nodes c2,
               sendGroupPrepare W group "id" Sim.hello c = (Ok prep, c1)
               /\ encryptMessageForDevices W (gpDevices prep) "id"
                    (gpSkdPlaintext prep) None c1 = ((nodes, flag), c2)) ->
            Session_Account c = Sim.account ->
            exists n,
              dispatched (new_events c (sendGroup W group "id" Sim.hello c).2) = [n]
              /\ count_children "device-identity" n
                 = if flag then 1%nat else 0%nat) as Hgroup.
  { intros c flag (prep & c1 & nodes & c2 & Hp & Hf) Hc.
    destruct (proj2 (identity_child_follows_flag W group "id" Sim.hello c)
                prep c1 nodes flag c2 Hp Hf) as (_ & H & _).
    destruct (H (or_intror (Hacc c Hc))) as (n & Hd & _ & _ & Hn). by exists n. }
  split; [|split; [|split]].
  - apply (Hdm fresh true); [|reflexivity].
    destruct (marshalMessage W bob Sim.hello) as [[pt dsm]|e] eqn:Hm;
      [|vm_compute in Hm; discriminate].
    destruct (GetUSyncDevices W [bob; Session_ID fresh] false fresh)
      as [[devs|e] c1] eqn:Hu; [|vm_compute in Hu; discriminate].
    destruct (encryptMessageForDevices W devs "id" pt dsm c1)
      as [[nodes flag] c2] eqn:Hf.
    assert (flag = true) as ->.
    { pose proof Hm as Hm'. vm_compute in Hm'. injection Hm' as <- <-.
      pose proof Hu as Hu'. vm_compute in Hu'. injection Hu' as <- <-.
      apply (f_equal (fun r => r.1.2)) in Hf. vm_compute in Hf. by symmetry. }
    by exists pt, dsm, devs, c1, nodes, c2.
  - apply (Hdm known false); [|reflexivity].
    destruct (marshalMessage W bob Sim.hello) as [[pt dsm]|e] eqn:Hm;
      [|vm_compute in Hm; discriminate].
    destruct (GetUSyncDevices W [bob; Session_ID known] false known)
      as [[devs|e] c1] eqn:Hu; [|vm_compute in Hu; discriminate].
    destruct (encryptMessageForDevices W devs "id" pt dsm c1)
      as [[nodes flag] c2] eqn:Hf.
    assert (flag = false) as ->.
    { pose proof Hm as Hm'. vm_compute in Hm'. injection Hm' as <- <-.
      pose proof Hu as Hu'. vm_compute in Hu'. injection Hu' as <- <-.
      apply (f_equal (fun r => r.1.2)) in Hf. vm_compute in Hf. by symmetry. }
    by exists pt, dsm, devs, c1, nodes, c2.
  - apply (Hgroup fresh true); [|reflexivity].
    destruct (sendGroupPrepare W group "id" Sim.hello fresh) as [[prep|e] c1] eqn:Hp;
      [|vm_compute in Hp; discriminate].
    destruct (encryptMessageForDevices W (gpDevices prep) "id" (gpSkdPlaintext prep)
                None c1) as [[nodes flag] c2] eqn:Hf.
    assert (flag = true) as ->.
    { pose proof Hp as Hp'. vm_compute in Hp'. injection Hp' as <- <-.
      apply (f_equal (fun r => r.1.2)) in Hf. vm_compute in Hf. by symmetry. }
    by exists prep, c1, nodes, c2.
  - apply (Hgroup known false); [|reflexivity].
    destruct (sendGroupPrepare W group "id" Sim.hello known) as [[prep|e] c1] eqn:Hp;
      [|vm_compute in Hp; discriminate].
    destruct (encryptMessageForDevices W (gpDevices prep) "id" (gpSkdPlaintext prep)
                None c1) as [[nodes flag] c2] eqn:Hf.
    assert (flag = false) as ->.
    { pose proof Hp as Hp'. vm_compute in Hp'. injection Hp' as <- <-.
      apply (f_equal (fun r => r.1.2)) in Hf. vm_compute in Hf. by symmetry. }
    by exists prep, c1, nodes, c2.
Defined.

Lemma group_node_phash_and_skmsg_witness :
  let W := Sim.world Sim.always (Some ["alice"; "bob"]) (Some Sim.directory_ab)
             (inr [(Sim.bob0, mkPreKeyResp (Some [9]) None)]) true in
  let c := Sim.client [(Sim.signalAddress Sim.alice1, [0])] in
  (exists n,
     In (EvSendNode n)
       (new_events c (sendGroup W (NewJID "1234" "g.us") "id" Sim.hello c).2)
     /\ (exists phash, Attrs n !! "phash" = Some (AttrString phash))
     /\ count_skmsg n = 1%nat)
  /\ (exists n,
        In (EvSendNode n)
          (new_events c (sendDM W (NewJID "bob" Sim.server) "id" Sim.hello c).2)
        /\ Attrs n !! "phash" = None /\ count_skmsg n = 0%nat).
Proof.
  intros W c. split.
  - exists (hd zeroNode
              (dispatched
                 (new_events c
                    (sendGroup W (NewJID "1234" "g.us") "id" Sim.hello c).2))).
    split; [first_dispatched|].
    refine (proj1 (group_node_phash_and_skmsg W (NewJID "1234" "g.us") "id"
                     Sim.hello c _) _).
    first_dispatched.
  - exists (hd zeroNode
              (dispatched
                 (new_events c
                    (sendDM W (NewJID "bob" Sim.server) "id" Sim.hello c).2))).
    split; [first_dispatched|].
    refine (proj2 (group_node_phash_and_skmsg W (NewJID "bob" Sim.server) "id"
                     Sim.hello c _) _).
    first_dispatched.
Defined.

(** The group send of the witness, as dispatched. *)
Example group_send_run :
  let W := Sim.world Sim.always (Some ["alice"; "bob"]) (Some Sim.directory_ab)
             (inr [(Sim.bob0, mkPreKeyResp (Some [9]) None)]) true in
  let c := Sim.client [(Sim.signalAddress Sim.alice1, [0])] in
  let r := sendGroup W (NewJID "1234" "g.us") "id" Sim.hello c in
  r.1 = Ok tt
  /\ map (fun ev => match ev with
                    | EvSendNode n =>
                        (map Tag (GetChildren n),
                         map envelope_to (participants_of n),
                         map envelope_pkmsg (participants_of n),
                         Attrs n !! "phash")
                    | _ => ([], [], [], None)
                    end) (List.filter is_dispatch (trace r.2))
     = [(["participants"; "enc"; "device-identity"],
         [Some Sim.alice1; Some Sim.bob0], [false; true],
         Some (AttrString
                 (participantListHashV2
                    ["alice@s.whatsapp.net"; "bob@s.whatsapp.net"])))].
Proof. vm_compute. repeat split. Qed.

(** ** C3: which failures abort a send *)

(** C3. A failure before the fan-out (group-info query, marshalling,
    device resolution) ends the send with that error and no node is
    dispatched; the fan-out itself returns no error, so whatever happens
    to the devices the send goes on to assemble and dispatch its node.
    With an empty envelope list the node is dispatched with an empty
    participants list and the send returns what the transport returns,
    success when the transport accepts the node. *)
Theorem resolution_failures_abort_encryption_failures_do_not (W : World)
  (to : FullJID) (id : string) (message : Message) (c : Client) :
  (forall e, marshalMessage W to message = Err e ->
     sendDM W to id message c = (Err e, c))
  /\ (forall pt dsm e c1,
        marshalMessage W to message = Ok (pt, dsm) ->
        GetUSyncDevices W [to; Session_ID c] false c = (Err e, c1) ->
        sendDM W to id message c
        = (Err (ErrorfW "failed to get device list: %w" [] e), c1)
        /\ Forall (fun ev => is_query_event ev = true) (new_events c c1))
  /\ (forall e c1,
        GetGroupInfo W to c = (Err e, c1) ->
        sendGroup W to id message c
        = (Err (ErrorfW "failed to get group info: %w" [] e), c1)
        /\ Forall (fun ev => is_query_event ev = true) (new_events c c1))
  /\ (forall g c1 e,
        GetGroupInfo W to c = (Ok g, c1) ->
        marshalMessage W to message = Err e ->
        sendGroup W to id message c = (Err e, c1))
  /\ (forall e c1,
        sendGroupPrepare W to id message c = (Err e, c1) ->
        sendGroup W to id message c = (Err e, c1)
        /\ Forall (fun ev => is_prepare_event ev = true) (new_events c c1))
  /\ (forall pt dsm devs c1,
        marshalMessage W to message = Ok (pt, dsm) ->
        GetUSyncDevices W [to; Session_ID c] false c = (Ok devs, c1) ->
        let r := encryptMessageForDevices W devs id pt dsm c1 in
        sendDM W to id message c = finishSend W (dmNode to id r.1.1) r.1.2 r.2
        /\ (r.1.1 = [] ->
            sendDM W to id message c
            = (match sendNode W (trace r.2) (dmNode to id []) with
               | Some e =>
                   Err (ErrorfW "failed to send message node: %w" [] (ErrExt e))
               | None => Ok tt
               end, emit (EvSendNode (dmNode to id [])) r.2)
            /\ participants_of (dmNode to id []) = []))
  /\ (forall prep c1,
        sendGroupPrepare W to id message c = (Ok prep, c1) ->
        let r :=
          encryptMessageForDevices W (gpDevices prep) id (gpSkdPlaintext prep)
            None c1 in
        let node nodes :=
          groupNode to id
            (participantListHashV2
               (map (fun p => JID_String W (pFullJID p))
                  (gParticipants (gpInfo prep))))
            nodes (gpCiphertext prep) in
        sendGroup W to id message c = finishSend W (node r.1.1) r.1.2 r.2
        /\ (r.1.1 = [] ->
            sendGroup W to id message c
            = (match sendNode W (trace r.2) (node []) with
               | Some e =>
                   Err (ErrorfW "failed to send message node: %w" [] (ErrExt e))
               | None => Ok tt
               end, emit (EvSendNode (node [])) r.2)
            /\ participants_of (node []) = [])).
Proof.
  split; [|split; [|split; [|split; [|split; [|split]]]]].
  - intros e Hm. unfold sendDM. by rewrite Hm.
  - intros pt dsm e c1 Hm Hu. split; [unfold sendDM; by rewrite Hm, Hu|].
    destruct (GetUSyncDevices_run W [to; Session_ID c] false c) as [Hrun _].
    rewrite Hu in Hrun. cbn [snd] in Hrun. rewrite (run_from_new_events _ _ _ Hrun).
    by repeat constructor.
  - intros e c1 Hg.
    split; [unfold sendGroup, sendGroupPrepare; by rewrite Hg|].
    destruct (GetGroupInfo_run W to c) as (evs & Hrun & Hcls & _).
    rewrite Hg in Hrun. cbn [snd] in Hrun. by rewrite (run_from_new_events _ _ _ Hrun).
  - intros g c1 e Hg Hm. unfold sendGroup, sendGroupPrepare. by rewrite Hg, Hm.
  - intros e c1 Hp. split; [unfold sendGroup; by rewrite Hp|].
    destruct (sendGroupPrepare_run W to id message c) as (evs & Hrun & Hcls & _).
    rewrite Hp in Hrun. cbn [snd] in Hrun. by rewrite (run_from_new_events _ _ _ Hrun).
  - intros pt dsm devs c1 Hm Hu r.
    assert (sendDM W to id message c
            = finishSend W (dmNode to id r.1.1) r.1.2 r.2) as Hs.
    { unfold sendDM. rewrite Hm, Hu. fold r. by destruct r as [[nodes incl] c2]. }
    split; [exact Hs|]. intros Hnil. split; [|reflexivity].
    destruct (encryptMessageForDevices_run W devs id pt dsm c1)
      as (evs & added & _ & _ & _ & _ & _ & Hres & _).
    fold r in Hres. rewrite Hs, Hres in *. cbn [fst snd] in *. subst added.
    unfold finishSend, do_sendNode. simpl.
    by destruct (sendNode W (trace r.2) (dmNode to id [])).
  - intros prep c1 Hp r node.
    assert (sendGroup W to id message c = finishSend W (node r.1.1) r.1.2 r.2) as Hs.
    { unfold sendGroup. rewrite Hp. fold r. by destruct r as [[nodes incl] c2]. }
    split; [exact Hs|]. intros Hnil. split; [|reflexivity].
    destruct (encryptMessageForDevices_run W (gpDevices prep) id
                (gpSkdPlaintext prep) None c1)
      as (evs & added & _ & _ & _ & _ & _ & Hres & _).
    fold r in Hres. rewrite Hs, Hres in *. cbn [fst snd] in *. subst added.
    unfold finishSend, do_sendNode. simpl.
    by destruct (sendNode W (trace r.2) (node [])).
Qed.

Lemma all_devices_fail_witness :
  let W := Sim.world Sim.always None (Some Sim.directory_ab)
             (inr [(Sim.bob0, mkPreKeyResp (Some []) None)]) true in
  let c := Sim.client [(Sim.signalAddress Sim.alice1, [7])] in
  let to := NewJID "bob" Sim.server in
  let pt := Sim.encode (PMessage Sim.hello) in
  let dsm := Some (Sim.encode (PDeviceSentMessage
                                 (mkDeviceSentMessage (Sim.jidString to) Sim.hello))) in
  let c1 := (GetUSyncDevices W [to; Session_ID c] false c).2 in
  let r := encryptMessageForDevices W [Sim.alice1; Sim.bob0] "id" pt dsm c1 in
  marshalMessage W to Sim.hello = Ok (pt, dsm)
  /\ GetUSyncDevices W [to; Session_ID c] false c = (Ok [Sim.alice1; Sim.bob0], c1)
  /\ r.1.1 = []
  /\ sendDM W to "id" Sim.hello c
     = (Ok tt, emit (EvSendNode (dmNode to "id" [])) r.2)
  /\ participants_of (dmNode to "id" []) = [].
Proof.
  intros W c to pt dsm c1 r.
  assert (marshalMessage W to Sim.hello = Ok (pt, dsm)) as Hm
    by (vm_compute; reflexivity).
  assert (GetUSyncDevices W [to; Session_ID c] false c
          = (Ok [Sim.alice1; Sim.bob0], c1)) as Hu by (vm_compute; reflexivity).
  assert (r.1.1 = []) as Hnil by (vm_compute; reflexivity).
  destruct (resolution_failures_abort_encryption_failures_do_not
              W to "id" Sim.hello c) as (_ & _ & _ & _ & _ & H & _).
  destruct (H pt dsm [Sim.alice1; Sim.bob0] c1 Hm Hu) as [_ H'].
  destruct (H' Hnil) as [Hs Hp].
  do 3 (split; [done|]). split; [exact Hs|exact Hp].
Defined.

(** The run of the witness: one device fails in the cipher, the other has
    its bundle rejected; the node still goes out, without participants. *)
Example all_devices_fail_run :
  let W := Sim.world Sim.always None (Some Sim.directory_ab)
             (inr [(Sim.bob0, mkPreKeyResp (Some []) None)]) true in
  let c := Sim.client [(Sim.signalAddress Sim.alice1, [7])] in
  let r := sendDM W (NewJID "bob" Sim.server) "id" Sim.hello c in
  r.1 = Ok tt
  /\ List.filter (fun ev => is_encryption ev || is_fetch ev) (trace r.2)
     = [EvEncrypt Sim.alice1
          (Sim.encode (PDeviceSentMessage
                         (mkDeviceSentMessage "bob@s.whatsapp.net" Sim.hello)) ++ [1])
          None;
        EvFetchPreKeys [Sim.bob0];
        EvProcessBundle Sim.bob0 [] false]
  /\ List.filter is_dispatch (trace r.2)
     = [EvSendNode (dmNode (NewJID "bob" Sim.server) "id" [])].
Proof. vm_compute. repeat split. Qed.

(** ** C8: the self-copy and a failing marshal *)

(** C8 fails as worded on the group path: [sendGroup] asks for the group
    info before it marshals, so the query is on the network when the
    marshal fails. *)
Lemma marshal_failure_after_group_query_counterexample :
  ~ marshal_failure_before_any_activity
      (Sim.world Sim.never (Some ["alice"; "bob"]) (Some Sim.directory_ab)
         (inr []) true)
      sendGroup (NewJID "1234" "g.us") "id" Sim.hello (Sim.client []).
Proof.
  unfold marshal_failure_before_any_activity. intros H.
  destruct (H eq_refl) as [_ Hev]. vm_compute in Hev.
  inversion Hev as [|ev evs [_ Hnet] _]. discriminate Hnet.
Qed.

(** C8, amended. [marshalMessage] returns the self-copy plaintext exactly
    for a destination that is not a group.  When it fails, the direct send
    returns its error and nothing has happened; the group send returns an
    error, and all that has happened is the group-info query: no call into
    the signal library, no key fetch, no node dispatched, the session
    store as it was. *)
Theorem marshal_self_copy_and_abort (W : World) (to : FullJID) (id : string)
  (message : Message) (c : Client) :
  (forall pt dsm,
     marshalMessage W to message = Ok (pt, dsm) ->
     (is_Some dsm <-> Server to <> GroupServer W))
  /\ (forall e,
        marshalMessage W to message = Err e ->
        sendDM W to id message c = (Err e, c)
        /\ is_Err (sendGroup W to id message c).1 = true
        /\ (sendGroup W to id message c).2 = (GetGroupInfo W to c).2
        /\ Forall (fun ev => is_query_event ev = true)
             (new_events c (sendGroup W to id message c).2)
        /\ sessions (sendGroup W to id message c).2 = sessions c).
Proof.
  split.
  - intros pt dsm. unfold marshalMessage.
    destruct (proto_Marshal W (PMessage message)) as [e|plaintext]; [discriminate|].
    destruct (String.eqb_spec (Server to) (GroupServer W)) as [Heq|Hne]; simpl.
    + intros [= <- <-]. split; [intros [x Hx]; discriminate|done].
    + destruct (proto_Marshal W _) as [e|d]; [discriminate|].
      intros [= <- <-]. split; [done|eauto].
  - intros e Hm. split; [unfold sendDM; by rewrite Hm|].
    destruct (GetGroupInfo_run W to c) as (evs & Hrun & Hcls & Hs & _).
    assert ((sendGroup W to id message c).2 = (GetGroupInfo W to c).2
            /\ is_Err (sendGroup W to id message c).1 = true) as [H2 H1].
    { unfold sendGroup, sendGroupPrepare.
      destruct (GetGroupInfo W to c) as [[g|e0] c1]; [|done]. by rewrite Hm. }
    split; [exact H1|]. split; [exact H2|]. rewrite H2.
    split; [by rewrite (run_from_new_events _ _ _ Hrun)|exact Hs].
Qed.

Lemma marshal_self_copy_and_abort_witness :
  let W := Sim.world Sim.never (Some ["alice"; "bob"]) (Some Sim.directory_ab)
             (inr []) true in
  let W' := Sim.world Sim.always None None (inr []) true in
  let c := Sim.client [] in
  let group := NewJID "1234" "g.us" in
  let bob := NewJID "bob" Sim.server in
  marshalMessage W group Sim.hello = Err (ErrorfW "failed to marshal message: %w" []
                                            (ErrExt "cannot marshal"))
  /\ sendDM W group "id" Sim.hello c
     = (Err (ErrorfW "failed to marshal message: %w" [] (ErrExt "cannot marshal")), c)
  /\ is_Err (sendGroup W group "id" Sim.hello c).1 = true
  /\ Forall (fun ev => is_query_event ev = true)
       (new_events c (sendGroup W group "id" Sim.hello c).2)
  /\ (exists pt dsm, marshalMessage W' bob Sim.hello = Ok (pt, dsm)
                     /\ (is_Some dsm <-> Server bob <> GroupServer W'))
  /\ (exists pt dsm, marshalMessage W' group Sim.hello = Ok (pt, dsm) /\ dsm = None).
Proof.
  intros W W' c group bob.
  assert (marshalMessage W group Sim.hello
          = Err (ErrorfW "failed to marshal message: %w" [] (ErrExt "cannot marshal")))
    as Hm by reflexivity.
  destruct (proj2 (marshal_self_copy_and_abort W group "id" Sim.hello c) _ Hm)
    as (H1 & H2 & _ & H4 & _).
  do 4 (split; [done|]). split.
  - eexists _, _. split; [vm_compute; reflexivity|].
    eapply (proj1 (marshal_self_copy_and_abort W' bob "id" Sim.hello c)).
    vm_compute. reflexivity.
  - eexists _, _. split; vm_compute; reflexivity.
Defined.

(** ** C7: device resolution *)

Section Resolve.

Variable W : World.

Lemma usyncDevice_entry own ip jid (devices : list FullJID) (device : Node) :
  usyncDevice W own ip jid devices device
  = devices ++ List.filter (keepsDevice own ip)
                 (match deviceEntry W jid device with Some d => [d] | None => [] end).
Proof.
  unfold usyncDevice, deviceEntry, keepsDevice.
  destruct (au_GetInt64 (AttrGetter device) "id" true) as [[deviceID ok] au].
  destruct (String.eqb (Tag device) "device"), ok; simpl;
    rewrite ?app_nil_r; try done.
  by destruct (_ && _); rewrite ?app_nil_r.
Qed.

Lemma usyncDevices_entries own ip jid (l : list Node) (devices : list FullJID) :
  fold_left (usyncDevice W own ip jid) l devices
  = devices ++ List.filter (keepsDevice own ip) (omap (deviceEntry W jid) l).
Proof.
  revert devices. induction l as [|device l IH]; intros devices; simpl.
  { by rewrite app_nil_r. }
  rewrite IH, usyncDevice_entry, <- app_assoc. f_equal.
  destruct (deviceEntry W jid device) as [d|]; simpl; [|done].
  by destruct (keepsDevice own ip d).
Qed.

Lemma usyncUser_entries own ip (devices : list FullJID) (user : Node) :
  usyncUser W own ip devices user
  = devices ++ List.filter (keepsDevice own ip) (userEntries W user).
Proof.
  unfold usyncUser, userEntries.
  destruct (Attrs user !! "jid") as [[s|jid|]|]; rewrite ?app_nil_r; try done.
  destruct (String.eqb (Tag user) "user"); simpl; [|by rewrite app_nil_r].
  destruct (String.eqb (Tag (GetChildByTag user "devices")) "devices"); simpl;
    [|by rewrite app_nil_r].
  destruct (String.eqb _ "device-list"); simpl; [|by rewrite app_nil_r].
  apply usyncDevices_entries.
Qed.

Lemma usyncUsers_entries own ip (users : list Node) (devices : list FullJID) :
  fold_left (usyncUser W own ip) users devices
  = devices ++ List.filter (keepsDevice own ip) (usyncEntries W users).
Proof.
  revert devices. induction users as [|user users IH]; intros devices; simpl.
  { by rewrite app_nil_r. }
  by rewrite IH, usyncUser_entries, List.filter_app, app_assoc.
Qed.

(** A listed address is a device-qualified address on the default server
    with an index of eight bits. *)
Lemma usyncEntries_shape (users : list Node) (d : FullJID) :
  In d (usyncEntries W users) ->
  0 <= Device d < 256 /\ Agent d = 0 /\ AD d = true
  /\ Server d = DefaultUserServer W.
Proof.
  unfold usyncEntries. rewrite in_flat_map. intros (user & _ & Hd).
  unfold userEntries in Hd.
  destruct (Attrs user !! "jid") as [[s|jid|]|]; try done.
  destruct (_ && _); [|done].
  apply list_elem_of_In, list_elem_of_omap in Hd as (device & _ & Hd).
  unfold deviceEntry in Hd.
  destruct (au_GetInt64 (AttrGetter device) "id" true) as [[deviceID ok] au].
  destruct (_ && _); [|done]. injection Hd as <-. simpl.
  unfold byte_of_int64. split; [apply Z.mod_pos_bound; lia|done].
Qed.

End Resolve.

(** C7. A successful resolution returns the addresses the directory
    answer lists, without the sender's own registered address, and without
    the addresses of index 0 exactly when [ignorePrimary] is set; for the
    users alice and bob, the answer alice: 0, 1 and bob: 0, and the sender
    alice/0, that is alice/1 and bob/0. *)
Theorem resolve_devices_filter (W : World) (jids : list FullJID)
  (ignorePrimary : bool) (c c1 : Client) (devices : list FullJID) :
  GetUSyncDevices W jids ignorePrimary c = (Ok devices, c1) ->
  exists res,
    sendIQ W (trace c) (usyncQuery W (generateRequestID W (trace c)) jids) = inr res
    /\ let entries :=
         usyncEntries W
           (GetChildren (GetChildByTag (GetChildByTag res "usync") "list")) in
       devices = List.filter (keepsDevice (Session_ID c) ignorePrimary) entries
       /\ (forall d,
             In d devices <->
             In d entries /\ d <> Session_ID c
             /\ (Device d = 0 -> ignorePrimary = false))
       /\ (GetUSyncDevices
             (Sim.world Sim.always None (Some Sim.directory_ab) (inr []) true)
             [NewJID "alice" Sim.server; NewJID "bob" Sim.server] false
             (Sim.client [])).1
          = Ok [Sim.alice1; Sim.bob0].
Proof.
  unfold GetUSyncDevices, do_sendIQ.
  destruct (sendIQ W (trace c) _) as [e|res]; [discriminate|].
  destruct (String.eqb (Tag (GetChildByTag res "usync")) "usync"); [|discriminate].
  destruct (String.eqb (Tag (GetChildByTag _ "list")) "list"); [|discriminate].
  simpl. intros [= <- <-]. exists res. split; [done|]. cbn zeta.
  rewrite usyncUsers_entries. simpl.
  split; [done|]. split; [|vm_compute; reflexivity].
  intros d. rewrite filter_In. unfold keepsDevice.
  rewrite andb_true_iff, orb_true_iff, !negb_true_iff, bool_decide_eq_false,
    Z.ltb_lt.
  split.
  - intros (Hin & Hk & Hne). do 2 (split; [done|]). intros H0.
    destruct Hk as [Hk|Hk]; [lia|done].
  - intros (Hin & Hne & Hk). split; [done|]. split; [|done].
    destruct (usyncEntries_shape W _ _ Hin) as [Hr _].
    destruct (decide (Device d = 0)) as [H0|H0]; [|left; lia].
    right. exact (Hk H0).
Qed.

Lemma resolve_devices_witness :
  let W := Sim.world Sim.always None (Some Sim.directory_ab) (inr []) true in
  let c := Sim.client [] in
  let jids := [NewJID "alice" Sim.server; NewJID "bob" Sim.server] in
  GetUSyncDevices W jids true c
  = (Ok [Sim.alice1], (GetUSyncDevices W jids true c).2)
  /\ exists res,
       sendIQ W (trace c) (usyncQuery W (generateRequestID W (trace c)) jids)
       = inr res
       /\ let entries :=
            usyncEntries W
              (GetChildren (GetChildByTag (GetChildByTag res "usync") "list")) in
          [Sim.alice1] = List.filter (keepsDevice (Session_ID c) true) entries
          /\ (forall d,
                In d [Sim.alice1] <->
                In d entries /\ d <> Session_ID c /\ (Device d = 0 -> true = false))
          /\ (GetUSyncDevices W jids false c).1 = Ok [Sim.alice1; Sim.bob0].
Proof.
  intros W c jids.
  assert (GetUSyncDevices W jids true c
          = (Ok [Sim.alice1], (GetUSyncDevices W jids true c).2)) as H
    by (vm_compute; reflexivity).
  split; [exact H|].
  exact (resolve_devices_filter W jids true c _ [Sim.alice1] H).
Defined.

(** The directory of the scenario lists alice/0, alice/1 and bob/0; an
    index beyond eight bits wraps around. *)
Example usync_entries_scenario :
  usyncEntries (Sim.world Sim.always None None (inr []) true)
    (map Sim.userNode [("alice", [0; 1]); ("bob", [0; 257])])
  = [Sim.alice0; Sim.alice1; Sim.bob0; Sim.device "bob" 1].
Proof. vm_compute. reflexivity. Qed.
